(** * everylotbot: the [EveryLot] class of [everylot/everylot.py]

    A shallow embedding of the class that picks one lot of the [lots]
    table, aims the street-view camera, resolves the location to ask the
    street-view service for, and builds the static-map request.

    - Python values read from SQLite are [pyval]; [float] is IEEE binary64,
      modelled by the Standard Library's [spec_float] at precision 53.
    - Exceptions are the second branch of [result]; code that talks to the
      geocoding service runs in [io], which also records the requests made.
    - [calculate_zoom] uses [math.sin] and [math.log]; it is embedded over
      the real numbers. *)

From Stdlib Require Import ZArith List String Ascii Bool Lia.
From Stdlib Require Import Reals Lra.
From Stdlib Require Import Floats.SpecFloat.
From Stdlib Require Strings.Byte.
From stdpp Require Import base option list gmap strings pretty.

#[local] Open Scope string_scope.
#[local] Open Scope Z_scope.
#[local] Set Warnings "-register-all".

(** ** Exceptions and results *)

(** The exception classes the code can meet.  All of them derive from
    Python's [Exception]. *)
Inductive exn :=
  | TypeError
  | ValueError
  | KeyError
  | IndexError
  | ZeroDivisionError
  | OverflowError
  | OperationalError      (* sqlite3: unknown column *)
  | JSONDecodeError       (* requests: body is not JSON *)
  | RequestException      (* requests: transport failure *)
  | NotFoundError.        (* the specification's "no matching record";
                             nothing in the code raises it *)

#[global] Instance exn_eq_dec : EqDecision exn.
Proof. solve_decision. Defined.

Inductive result (A : Type) :=
  | Ok (a : A)
  | Raise (e : exn).
Arguments Ok {A} a.
Arguments Raise {A} e.

#[global] Instance result_ret : MRet result := fun A a => Ok a.
#[global] Instance result_bind : MBind result := fun A B f m =>
  match m with
  | Ok a => f a
  | Raise e => Raise e
  end.

(** [try: body except E: handler] for one exception class. *)
Definition try_except {A} (body : result A) (E : exn) (handler : result A) : result A :=
  match body with
  | Ok a => Ok a
  | Raise e => if decide (e = E) then handler else Raise e
  end.

(** ** Python [float]: IEEE 754 binary64 *)

Module Float64.
Definition prec : Z := 53.
Definition emax : Z := 1024.

Definition add : spec_float -> spec_float -> spec_float := SFadd prec emax.
Definition sub : spec_float -> spec_float -> spec_float := SFsub prec emax.
Definition mul : spec_float -> spec_float -> spec_float := SFmul prec emax.
Definition div : spec_float -> spec_float -> spec_float := SFdiv prec emax.

(** The integer [z] rounded to the nearest float, ties to even. *)
Definition of_int (z : Z) : spec_float := binary_normalize prec emax z 0 false.

(** The quotient [n / d] of two positive integers, correctly rounded. *)
Definition of_ratio (s : bool) (n d : Z) : spec_float :=
  let '(q, e, l) := SFdiv_core_binary prec emax n 0 d 0 in
  binary_round_aux prec emax s q e l.

(** The decimal number [(-1)^s * m * 10^k], [0 <= m], correctly rounded:
    the value of a float literal and of a parsed numeric string. *)
Definition of_decimal (s : bool) (m k : Z) : spec_float :=
  if m =? 0 then S754_zero s
  else if 0 <=? k then binary_normalize prec emax (cond_Zopp s (m * 10 ^ k)) 0 s
  else of_ratio s m (10 ^ (- k)).

Definition is_zero (f : spec_float) : bool :=
  match f with S754_zero _ => true | _ => false end.
Definition is_infinite (f : spec_float) : bool :=
  match f with S754_infinity _ => true | _ => false end.

(** Exact comparison of an integer with a float, as Python compares an
    [int] with a [float]: no rounding of the integer takes place. *)
Definition compare_int (z : Z) (f : spec_float) : option comparison :=
  match f with
  | S754_nan => None
  | S754_infinity s => Some (if s then Gt else Lt)
  | S754_zero _ => Some (z ?= 0)
  | S754_finite s m e =>
      let v := cond_Zopp s (Zpos m) in
      Some (if 0 <=? e then z ?= v * 2 ^ e else z * 2 ^ (- e) ?= v)
  end.

(** *** [repr]: the shortest decimal string that reads back as the float *)

(** A positive rational [n/d] divided by [10^k]. *)
Definition scale10 (nd : Z * Z) (k : Z) : Z * Z :=
  let '(n, d) := nd in
  if 0 <=? k then (n, d * 10 ^ k) else (n * 10 ^ (- k), d).

Definition ge_pow10 (nd : Z * Z) (p : Z) : bool :=
  let '(a, b) := scale10 nd p in b <=? a.

(** The decimal exponent [p] with [10^p <= n/d < 10^(p+1)]. *)
Definition log10_floor (nd : Z * Z) : Z :=
  let est := ((Z.log2 (fst nd) - Z.log2 (snd nd)) * 30103) / 100000 in
  if ge_pow10 nd (est + 1) then est + 1
  else if ge_pow10 nd est then est else est - 1.

(** The [n]-digit decimals just below and just above [x = n/d]: the one
    that reads back as [x], the nearer of the two when both do. *)
Definition candidate (x : spec_float) (nd : Z * Z) (p n : Z) : option (Z * Z) :=
  let k := p - (n - 1) in
  let '(a, b) := scale10 nd k in
  let lo := a / b in
  let r := a mod b in
  let ok d := SFeqb (of_decimal false d k) x in
  if r =? 0 then Some (lo, k)
  else
    let hi := lo + 1 in
    match ok lo, ok hi with
    | true, true =>
        Some (if 2 * r <? b then lo else if b <? 2 * r then hi
              else if Z.even lo then lo else hi, k)
    | true, false => Some (lo, k)
    | false, true => Some (hi, k)
    | false, false => None
    end.

Fixpoint shortest (x : spec_float) (nd : Z * Z) (p n : Z) (fuel : nat) : Z * Z :=
  match fuel with
  | O => (fst nd / snd nd, 0)
  | S fuel' =>
      match candidate x nd p n with
      | Some r => r
      | None => shortest x nd p (n + 1) fuel'
      end
  end.

Fixpoint strip_zeros (d : Z) (fuel : nat) : Z :=
  match fuel with
  | O => d
  | S f => if (d mod 10 =? 0) && negb (d =? 0) then strip_zeros (d / 10) f else d
  end.

Definition zeros (n : Z) : string := String.concat "" (repeat "0" (Z.to_nat n)).

(** Layout of the digits: fixed notation when the decimal point falls in
    [-4 < decpt <= 16], exponent notation otherwise. *)
Definition repr_pos (m : positive) (e : Z) : string :=
  let x := S754_finite false m e in
  let nd := if 0 <=? e then (Zpos m * 2 ^ e, 1) else (Zpos m, 2 ^ (- e)) in
  let p := log10_floor nd in
  let '(D, k) := shortest x nd p 1 17 in
  let decpt := Z.of_nat (String.length (pretty D)) + k in
  let ds := pretty (strip_zeros D 400) in
  let n := Z.of_nat (String.length ds) in
  if (decpt <=? -4) || (16 <? decpt) then
    let ex := decpt - 1 in
    let mant := match ds with
                | String c EmptyString => ds
                | String c rest => String c ("." +:+ rest)
                | EmptyString => ds
                end in
    let ea := pretty (Z.abs ex) in
    mant +:+ "e" +:+ (if ex <? 0 then "-" else "+")
         +:+ (if Z.abs ex <? 10 then "0" +:+ ea else ea)
  else if decpt <=? 0 then "0." +:+ zeros (- decpt) +:+ ds
  else if n <=? decpt then ds +:+ zeros (decpt - n) +:+ ".0"
  else substring 0 (Z.to_nat decpt) ds +:+ "." +:+
       substring (Z.to_nat decpt) (Z.to_nat (n - decpt)) ds.

Definition repr (x : spec_float) : string :=
  match x with
  | S754_nan => "nan"
  | S754_infinity s => if s then "-inf" else "inf"
  | S754_zero s => if s then "-0.0" else "0.0"
  | S754_finite s m e => (if s then "-" else "") +:+ repr_pos m e
  end.
End Float64.

(** ** Numeric strings: what [float(s)] accepts

    ASCII text only: white space around the number, an optional sign, a
    decimal number with optional fraction and exponent, digits optionally
    grouped by single underscores, or one of [inf], [infinity], [nan] in
    any case.  Bytes outside ASCII make the string not a number here. *)

Module PyStr.
Definition code (c : ascii) : Z := Z.of_nat (nat_of_ascii c).
Definition is_space (c : ascii) : bool :=
  ((9 <=? code c) && (code c <=? 13)) || (code c =? 32).
Definition is_digit (c : ascii) : bool := (48 <=? code c) && (code c <=? 57).
Definition lower (c : ascii) : ascii :=
  if (65 <=? code c) && (code c <=? 90) then ascii_of_nat (nat_of_ascii c + 32) else c.
Definition is_char (c d : ascii) : bool := bool_decide (c = d).

(** An underscore must sit between two digits; it is then dropped. *)
Fixpoint drop_underscores (prev : option ascii) (s : list ascii) : option (list ascii) :=
  match s with
  | [] => if from_option (is_char "_") false prev then None else Some []
  | c :: s' =>
      if is_char "_" c then
        if from_option is_digit false prev then drop_underscores (Some c) s' else None
      else if from_option (is_char "_") false prev && negb (is_digit c) then None
      else cons c <$> drop_underscores (Some c) s'
  end.

Fixpoint lstrip (s : list ascii) : list ascii :=
  match s with
  | c :: s' => if is_space c then lstrip s' else s
  | [] => []
  end.
Definition strip (s : list ascii) : list ascii := rev (lstrip (rev (lstrip s))).

Fixpoint span_digits (s : list ascii) : list ascii * list ascii :=
  match s with
  | c :: s' => if is_digit c then let '(d, r) := span_digits s' in (c :: d, r) else ([], s)
  | [] => ([], [])
  end.
Definition digits_val (d : list ascii) : Z :=
  fold_left (fun acc c => 10 * acc + (code c - 48)) d 0.
Definition split_sign (s : list ascii) : bool * list ascii :=
  match s with
  | c :: r =>
      if is_char "-" c then (true, r) else if is_char "+" c then (false, r) else (false, s)
  | [] => (false, [])
  end.

Definition parse_inf_or_nan (sign : bool) (r : list ascii) : option spec_float :=
  let w := string_of_list_ascii (map lower r) in
  if bool_decide (w = "inf") || bool_decide (w = "infinity") then Some (S754_infinity sign)
  else if bool_decide (w = "nan") then Some S754_nan
  else None.

Definition parse_exponent (r : list ascii) : option Z :=
  match r with
  | [] => Some 0
  | c :: t =>
      if is_char "e" (lower c) then
        let '(neg, t') := split_sign t in
        let '(ed, rest) := span_digits t' in
        match ed, rest with
        | _ :: _, [] => Some (cond_Zopp neg (digits_val ed))
        | _, _ => None
        end
      else None
  end.

Definition parse_decimal (sign : bool) (r : list ascii) : option spec_float :=
  let '(ip, r1) := span_digits r in
  let '(fp, r2) := match r1 with
                   | c :: t => if is_char "." c then span_digits t else ([], r1)
                   | [] => ([], [])
                   end in
  match (ip ++ fp)%list with
  | [] => None
  | ds => ex ← parse_exponent r2;
          Some (Float64.of_decimal sign (digits_val ds) (ex - Z.of_nat (length fp)))
  end.

Definition float_of_chars (s : list ascii) : option spec_float :=
  s1 ← drop_underscores None s;
  let '(sign, r) := split_sign (strip s1) in
  match parse_inf_or_nan sign r with
  | Some f => Some f
  | None => parse_decimal sign r
  end.
End PyStr.

(** ** Python values *)

(** The values the [sqlite3] module hands back for a column: [None] for
    NULL, [int], [float], [str] (as UTF-8 text) and [bytes]. *)
Inductive pyval :=
  | VNone
  | VInt (z : Z)
  | VFloat (f : spec_float)
  | VStr (s : string)
  | VBytes (b : list Byte.byte).

Definition chars_of_bytes (b : list Byte.byte) : list ascii := map ascii_of_byte b.

(** [float(v)] *)
Definition py_float (v : pyval) : result spec_float :=
  match v with
  | VNone => Raise TypeError
  | VInt z =>
      let f := Float64.of_int z in
      if Float64.is_infinite f then Raise OverflowError else Ok f
  | VFloat f => Ok f
  | VStr s =>
      match PyStr.float_of_chars (list_ascii_of_string s) with
      | Some f => Ok f
      | None => Raise ValueError
      end
  | VBytes b =>
      match PyStr.float_of_chars (chars_of_bytes b) with
      | Some f => Ok f
      | None => Raise ValueError
      end
  end.

(** Truth value of [v], as [if v:] and [v or w] test it. *)
Definition py_truthy (v : pyval) : bool :=
  match v with
  | VNone => false
  | VInt z => negb (z =? 0)
  | VFloat f => negb (Float64.is_zero f)
  | VStr s => negb (bool_decide (s = ""))
  | VBytes b => negb (bool_decide (b = []))
  end.

Definition py_or (v w : pyval) : pyval := if py_truthy v then v else w.

Fixpoint compare_bytes (a b : list Byte.byte) : comparison :=
  match a, b with
  | [], [] => Eq
  | [], _ :: _ => Lt
  | _ :: _, [] => Gt
  | x :: a', y :: b' =>
      match Byte.to_N x ?= Byte.to_N y with
      | Eq => compare_bytes a' b'
      | c => c
      end%N
  end.

(** Three-way comparison behind [<], [>], [<=], [>=]: [TypeError] for
    operands that are not ordered with each other, [None] when a NaN makes
    every ordering test false.  Two floats are compared by [SFcompare],
    which is the order of the numbers on floats in normal form, as all
    floats that arithmetic and conversion produce are. *)
Definition py_compare (a b : pyval) : result (option comparison) :=
  match a, b with
  | VInt x, VInt y => Ok (Some (x ?= y))
  | VInt x, VFloat g => Ok (Float64.compare_int x g)
  | VFloat f, VInt y => Ok (CompOpp <$> Float64.compare_int y f)
  | VFloat f, VFloat g => Ok (SFcompare f g)
  | VStr s, VStr t => Ok (Some (String.compare s t))
  | VBytes s, VBytes t => Ok (Some (compare_bytes s t))
  | _, _ => Raise TypeError
  end.

Definition py_lt (a b : pyval) : result bool :=
  c ← py_compare a b; Ok (match c with Some Lt => true | _ => false end).
Definition py_gt (a b : pyval) : result bool :=
  c ← py_compare a b; Ok (match c with Some Gt => true | _ => false end).
Definition py_ge (a b : pyval) : result bool :=
  c ← py_compare a b; Ok (match c with Some (Gt | Eq) => true | _ => false end).

(** [a == b] never raises: values of unrelated types are just unequal. *)
Definition py_eq (a b : pyval) : bool :=
  match a, b with
  | VNone, VNone => true
  | VInt _, (VInt _ | VFloat _) | VFloat _, (VInt _ | VFloat _)
  | VStr _, VStr _ | VBytes _, VBytes _ =>
      match py_compare a b with
      | Ok (Some Eq) => true
      | _ => false
      end
  | _, _ => false
  end.

(** [a - b] and [a + b] with a float on the right, as in [lat - d]. *)
Definition py_sub_float (a : pyval) (d : spec_float) : result spec_float :=
  match a with
  | VInt _ | VFloat _ => f ← py_float a; Ok (Float64.sub f d)
  | _ => Raise TypeError
  end.
Definition py_add_float (a : pyval) (d : spec_float) : result spec_float :=
  match a with
  | VInt _ | VFloat _ => f ← py_float a; Ok (Float64.add f d)
  | _ => Raise TypeError
  end.

(** *** [str(v)] *)

Definition hex_digit (n : N) : ascii :=
  ascii_of_N (if (n <? 10)%N then 48 + n else 87 + n).

Definition quote1 : ascii := ascii_of_nat 39.
Definition quote2 : ascii := ascii_of_nat 34.
Definition backslash : ascii := ascii_of_nat 92.

Definition repr_byte (quote : ascii) (b : Byte.byte) : string :=
  let c := ascii_of_byte b in
  let n := Byte.to_N b in
  if bool_decide (c = quote) || bool_decide (c = backslash)
  then String backslash (String c "")
  else if (n =? 9)%N then String backslash "t"
  else if (n =? 10)%N then String backslash "n"
  else if (n =? 13)%N then String backslash "r"
  else if (n <? 32)%N || (127 <=? n)%N
  then String backslash (String "x" (String (hex_digit (n / 16)) (String (hex_digit (n mod 16)) "")))
  else String c "".

Definition repr_bytes (b : list Byte.byte) : string :=
  let cs := chars_of_bytes b in
  let quote := if bool_decide (quote1 ∈ cs) && negb (bool_decide (quote2 ∈ cs))
               then quote2 else quote1 in
  String "b" (String quote (String.concat "" (map (repr_byte quote) b) +:+ String quote "")).

Definition py_str (v : pyval) : string :=
  match v with
  | VNone => "None"
  | VInt z => pretty z
  | VFloat f => Float64.repr f
  | VStr s => s
  | VBytes b => repr_bytes b
  end.

(** *** [str.format]

    A format string is kept parsed: runs of literal text, replacement
    fields [{name}] looked up in the keyword arguments, and positional
    fields ([{}] numbered from the left, or [{0}]).  Conversion flags and
    format specifications are not part of this model. *)
Inductive field :=
  | Lit (text : string)
  | Named (name : string)
  | Pos (index : nat).

Fixpoint py_format (fmt : list field) (args : list pyval) (kwargs : gmap string pyval)
  : result string :=
  match fmt with
  | [] => Ok ""
  | Lit text :: fmt' =>
      rest ← py_format fmt' args kwargs; Ok (text +:+ rest)
  | Named name :: fmt' =>
      match kwargs !! name with
      | None => Raise KeyError
      | Some v => rest ← py_format fmt' args kwargs; Ok (py_str v +:+ rest)
      end
  | Pos i :: fmt' =>
      match args !! i with
      | None => Raise IndexError
      | Some v => rest ← py_format fmt' args kwargs; Ok (py_str v +:+ rest)
      end
  end.

(** [d[k]] on a dict with string keys. *)
Definition py_getitem (d : gmap string pyval) (k : string) : result pyval :=
  match d !! k with
  | Some v => Ok v
  | None => Raise KeyError
  end.

(** ** The [lots] table *)

(** One table, [lots]: its column names and its rows, each row holding one
    value per column.  Values are compared as they are stored; the type
    affinity of the columns is not part of the model. *)
Record database := {
  columns : list string;
  rows : list (list pyval)
}.

Definition storage_class (v : pyval) : Z :=
  match v with
  | VNone => 0
  | VInt _ | VFloat _ => 1
  | VStr _ => 2
  | VBytes _ => 3
  end.

(** The order of [ORDER BY]: NULL, then numbers, then text, then blobs. *)
Definition sql_compare (a b : pyval) : comparison :=
  match storage_class a ?= storage_class b with
  | Eq => match py_compare a b with
          | Ok (Some c) => c
          | _ => Eq
          end
  | c => c
  end.

(** [a = b] in a WHERE clause: never true when NULL is involved. *)
Definition sql_eq (a b : pyval) : bool :=
  match a, b with
  | VNone, _ | _, VNone => false
  | _, _ => match sql_compare a b with Eq => true | _ => false end
  end.

Fixpoint column_index (name : string) (cols : list string) : option nat :=
  match cols with
  | [] => None
  | c :: cols' => if decide (c = name) then Some O else S <$> column_index name cols'
  end.

Definition cell (i : nat) (row : list pyval) : pyval := nth i row VNone.

(** The first row in [ORDER BY id ASC]. *)
Fixpoint least_by (j : nat) (rs : list (list pyval)) : option (list pyval) :=
  match rs with
  | [] => None
  | r :: rs' =>
      match least_by j rs' with
      | Some r' => match sql_compare (cell j r') (cell j r) with
                   | Lt => Some r'
                   | _ => Some r
                   end
      | None => Some r
      end
  end.

Definition matching (db : database) (i : nat) (value : pyval) : list (list pyval) :=
  List.filter (fun row => sql_eq (cell i row) value) (rows db).

(** [conn.execute(QUERY.format(field), (value,)).fetchone()]:
    [SELECT * FROM lots where <field> = ? ORDER BY id ASC LIMIT 1]. *)
Definition fetchone (db : database) (field : string) (value : pyval)
  : result (option (list pyval)) :=
  match column_index field (columns db), column_index "id" (columns db) with
  | Some i, Some j => Ok (least_by j (matching db i value))
  | _, _ => Raise OperationalError
  end.

(** ** The class *)

Record EveryLot := {
  search_format : list field;
  print_format : list field;
  lot : gmap string pyval
}.

(** [fmt or default]: the empty format string counts as no format. *)
Definition format_or (fmt : option (list field)) (default : list field) : list field :=
  match fmt with
  | Some (_ :: _ as f) => f
  | _ => default
  end.

(** [dict(zip(keys, row))]: a later pair replaces an earlier one. *)
Definition dict_zip (keys : list string) (row : list pyval) : gmap string pyval :=
  fold_left (fun m kv => <[kv.1 := kv.2]> m) (zip keys row) ∅.

Definition __init__ (db : database) (search_format print_format : option (list field))
    (id_ : pyval) : result EveryLot :=
  let search_format :=
    format_or search_format [Named "address"; Lit ", "; Named "city"; Lit " "; Named "state"] in
  let print_format := format_or print_format [Named "address"] in
  let '(field, value) := if py_truthy id_ then ("id", id_) else ("tweeted", VInt 0) in
  curs ← fetchone db field value;
  let keys := columns db in
  match curs with
  | None => Raise TypeError          (* zip(keys, None) *)
  | Some row =>
      Ok {| search_format := search_format;
            print_format := print_format;
            lot := dict_zip keys row |}
  end.

(** [floors = float(self.lot.get('floors', 0)) or 2], with [TypeError]
    caught. *)
Definition floors_of (self : EveryLot) : result pyval :=
  try_except
    (f ← py_float (default (VInt 0) (lot self !! "floors")); Ok (py_or (VFloat f) (VInt 2)))
    TypeError
    (Ok (VInt 2)).

Definition aim_camera (self : EveryLot) : result (Z * Z) :=
  let '(fov, pitch) := (65, 10) in
  floors ← floors_of self;
  let fov := if py_eq floors (VInt 3) then 72 else fov in
  let '(fov, pitch) := if py_eq floors (VInt 4) then (76, 15) else (fov, pitch) in
  ge5 ← py_ge floors (VInt 5);
  let '(fov, pitch) := if ge5 : bool then (81, 20) else (fov, pitch) in
  let fov := if py_eq floors (VInt 6) then 86 else fov in
  ge8 ← py_ge floors (VInt 8);
  let '(fov, pitch) := if ge8 : bool then (90, 25) else (fov, pitch) in
  ge10 ← py_ge floors (VInt 10);
  let '(fov, pitch) := if ge10 : bool then (90, 30) else (fov, pitch) in
  Ok (fov, pitch).

(** ** The geocoding service *)

(** A decoded JSON document, as [r.json()] returns it.  The members of an
    object are kept in the order of the text; decoding keeps the last of
    several members with one name. *)
Inductive json :=
  | JNull
  | JBool (b : bool)
  | JInt (z : Z)
  | JFloat (f : spec_float)
  | JStr (s : string)
  | JList (items : list json)
  | JDict (members : list (string * json)).

Fixpoint member (name : string) (members : list (string * json)) : option json :=
  match members with
  | [] => None
  | (k, v) :: rest =>
      match member name rest with
      | Some w => Some w
      | None => if decide (k = name) then Some v else None
      end
  end.

(** [j[name]] *)
Definition json_getitem (j : json) (name : string) : result json :=
  match j with
  | JDict members =>
      match member name members with
      | Some v => Ok v
      | None => Raise KeyError
      end
  | _ => Raise TypeError
  end.

(** The first character of UTF-8 text: a byte and the continuation bytes
    [10xxxxxx] after it. *)
Fixpoint continuation (s : string) : string :=
  match s with
  | String c s' =>
      if (128 <=? PyStr.code c) && (PyStr.code c <? 192) then String c (continuation s') else ""
  | EmptyString => ""
  end.

(** [j[0]] *)
Definition json_first (j : json) : result json :=
  match j with
  | JList (v :: _) => Ok v
  | JList [] => Raise IndexError
  | JStr (String c s) => Ok (JStr (String c (continuation s)))
  | JStr EmptyString => Raise IndexError
  | JDict _ => Raise KeyError
  | _ => Raise TypeError
  end.

(** A JSON value as the operand of [<] or [>] against a float; [bool] is
    a subclass of [int]. *)
Definition json_number (j : json) : result pyval :=
  match j with
  | JInt z => Ok (VInt z)
  | JFloat f => Ok (VFloat f)
  | JBool b => Ok (VInt (if b then 1 else 0))
  | _ => Raise TypeError
  end.

Definition json_lt (j : json) (f : spec_float) : result bool :=
  v ← json_number j; py_lt v (VFloat f).
Definition json_gt (j : json) (f : spec_float) : result bool :=
  v ← json_number j; py_gt v (VFloat f).

(** What [requests.get(GCAPI, params=...)] gives back: a response with
    its status code and its body ([None] when the body is not JSON), or an
    exception of the transport. *)
Record response := {
  status_code : Z;
  json_body : option json
}.

Definition network : Type := string -> string -> result response.

Inductive event :=
  | GeocodeRequest (address key : string).

(** Computations that may call the geocoding service: the result, and the
    requests issued on the way. *)
Definition io (A : Type) : Type := network -> result A * list event.

#[global] Instance io_ret : MRet io := fun A a _ => (Ok a, []).
#[global] Instance io_bind : MBind io := fun A B f m net =>
  match m net with
  | (Ok a, t) => let '(r, t') := f a net in (r, (t ++ t')%list)
  | (Raise e, t) => (Raise e, t)
  end.

Definition lift {A} (r : result A) : io A := fun _ => (r, []).
Definition raise {A} (e : exn) : io A := lift (Raise e).

(** [try: body except Exception: handler] *)
Definition try_except_Exception {A} (body handler : io A) : io A := fun net =>
  match body net with
  | (Ok a, t) => (Ok a, t)
  | (Raise _, t) => let '(r, t') := handler net in (r, (t ++ t')%list)
  end.

Definition requests_get (address key : string) : io response := fun net =>
  (net address key, [GeocodeRequest address key]).

Definition json_of (r : response) : result json :=
  match json_body r with
  | Some j => Ok j
  | None => Raise JSONDecodeError
  end.

(** ** Where to point street view *)

(** ['{},{}'.format(self.lot['lat'], self.lot['lon'])] *)
Definition latlon (self : EveryLot) : result string :=
  lat ← py_getitem (lot self) "lat";
  lon ← py_getitem (lot self) "lon";
  py_format [Pos 0; Lit ","; Pos 1] [lat; lon] ∅.

(** [d = 0.007] *)
Definition d : spec_float := Float64.of_decimal false 7 (-3).

(** The corners [minpt], [maxpt] of the box around the lot, each a pair
    (latitude, longitude). *)
Definition comfort_zone (self : EveryLot)
  : result ((spec_float * spec_float) * (spec_float * spec_float)) :=
  lat ← py_getitem (lot self) "lat";
  minlat ← py_sub_float lat d;
  lon ← py_getitem (lot self) "lon";
  minlon ← py_sub_float lon d;
  lat' ← py_getitem (lot self) "lat";
  maxlat ← py_add_float lat' d;
  lon' ← py_getitem (lot self) "lon";
  maxlon ← py_add_float lon' d;
  Ok ((minlat, minlon), (maxlat, maxlon)).

(** [loc = r.json()['results'][0]['geometry']['location']] *)
Definition location_of (r : response) : result json :=
  j ← json_of r;
  results ← json_getitem j "results";
  first ← json_first results;
  geometry ← json_getitem first "geometry";
  json_getitem geometry "location".

(** The four tests handed to [any]; all four are evaluated. *)
Definition outside_comfort_zone (loc : json)
    (minpt maxpt : spec_float * spec_float) : result bool :=
  lng1 ← json_getitem loc "lng"; west ← json_lt lng1 minpt.2;
  lng2 ← json_getitem loc "lng"; east ← json_gt lng2 maxpt.2;
  lat1 ← json_getitem loc "lat"; north ← json_gt lat1 maxpt.1;
  lat2 ← json_getitem loc "lat"; south ← json_lt lat2 minpt.1;
  Ok (west || east || north || south).

Definition streetviewable_location (self : EveryLot) (key : string) : io string :=
  match py_format (search_format self) [] (lot self) with
  | Raise KeyError => lift (latlon self)
  | Raise e => raise e
  | Ok address =>
      match comfort_zone self with
      | Raise KeyError => mret address
      | Raise e => raise e
      | Ok (minpt, maxpt) =>
          try_except_Exception
            (r ← requests_get address key;
             if negb (status_code r =? 200) then raise ValueError
             else
               loc ← lift (location_of r);
               outside ← lift (outside_comfort_zone loc minpt maxpt);
               if outside : bool then raise ValueError else mret address)
            (lift (latlon self))
      end
  end.

(** ** Map snapshots *)

(** The arithmetic [scale_bounds] needs, for whatever numbers the bounds
    are made of. *)
Class Number (A : Type) := {
  num_add : A -> A -> A;
  num_sub : A -> A -> A;
  num_mul : A -> A -> A;
  num_div : A -> A -> A;
  num_of_Z : Z -> A
}.

#[global] Instance float_Number : Number spec_float := {|
  num_add := Float64.add;
  num_sub := Float64.sub;
  num_mul := Float64.mul;
  num_div := Float64.div;
  num_of_Z := Float64.of_int
|}.

#[global] Instance R_Number : Number R := {|
  num_add := Rplus;
  num_sub := Rminus;
  num_mul := Rmult;
  num_div := Rdiv;
  num_of_Z := IZR
|}.

Definition scale_bounds {A} `{Number A} (bounds : A * A * A * A) (scale_factor : A)
  : A * A * A * A :=
  let '(b0, b1, b2, b3) := bounds in
  let two := num_of_Z 2 in
  let center := (num_div (num_add b2 b0) two, num_div (num_add b3 b1) two) in
  let dimensions := (num_sub b2 b0, num_sub b3 b1) in
  (num_sub center.1 (num_div (num_mul dimensions.1 scale_factor) two),
   num_sub center.2 (num_div (num_mul dimensions.2 scale_factor) two),
   num_add center.1 (num_div (num_mul dimensions.1 scale_factor) two),
   num_add center.2 (num_div (num_mul dimensions.2 scale_factor) two)).

(** [latRad] of [calculate_zoom].  Division by zero and the logarithm of a
    number that is not positive raise. *)
Definition latRad (lat : R) : result R :=
  let sin := sin (lat * PI / 180) in
  if Req_dec_T (1 - sin) 0 then Raise ZeroDivisionError
  else
    let q := ((1 + sin) / (1 - sin))%R in
    if Rle_dec q 0 then Raise ValueError
    else
      let radX2 := (ln q / 2)%R in
      Ok (Rmax (Rmin radX2 PI) (- PI) / 2)%R.

(** [zoom] of [calculate_zoom] *)
Definition zoom (mapPx worldPx fraction : R) : result Z :=
  if Req_dec_T worldPx 0 then Raise ZeroDivisionError
  else if Req_dec_T fraction 0 then Raise ZeroDivisionError
  else
    let q := (mapPx / worldPx / fraction)%R in
    if Rle_dec q 0 then Raise ValueError
    else Ok (Zfloor (ln q / ln 2)).

Definition calculate_zoom (bounds : R * R * R * R) (mapDim : R * R) : result Z :=
  let '(b0, b1, b2, b3) := bounds in
  let WORLD_DIM_height := 256%R in
  let WORLD_DIM_width := 256%R in
  let ZOOM_MAX := 20 in
  north ← latRad b3;
  south ← latRad b1;
  let latFraction := ((north - south) / PI)%R in
  let lngDiff := (b2 - b0)%R in
  let lngFraction := ((if Rlt_dec lngDiff 0 then lngDiff + 360 else lngDiff) / 360)%R in
  latZoom ← zoom mapDim.2 WORLD_DIM_height latFraction;
  lngZoom ← zoom mapDim.1 WORLD_DIM_width lngFraction;
  Ok (Z.min (Z.min latZoom lngZoom) ZOOM_MAX).

(** What [shapely.geometry.mapping] says about a shape: its type and its
    coordinates, points being pairs (x, y) = (longitude, latitude).  A
    polygon is its rings, the outer ring first and the holes after it. *)
Inductive geometry (A : Type) :=
  | Polygon (coordinates : list (list (A * A)))
  | MultiPolygon (coordinates : list (list (list (A * A))))
  | OtherGeometry (type : string).
Arguments Polygon {A} coordinates.
Arguments MultiPolygon {A} coordinates.
Arguments OtherGeometry {A} type.

Record LatLng (A : Type) := { lat : A; lng : A }.
Arguments lat {A} _.
Arguments lng {A} _.

(** [polygon[0]] *)
Definition first_ring {A} (polygon : list (list (A * A))) : result (list (A * A)) :=
  match polygon with
  | ring :: _ => Ok ring
  | [] => Raise IndexError
  end.

Fixpoint outer_rings {A} (coordinates : list (list (list (A * A))))
  : result (list (list (A * A))) :=
  match coordinates with
  | [] => Ok []
  | polygon :: rest =>
      ring ← first_ring polygon;
      rings ← outer_rings rest;
      Ok (ring :: rings)
  end.

(** [StaticMapPath(points=[{"lat": lat, "lng": lng} for lng, lat in polygon])] *)
Definition StaticMapPath {A} (polygon : list (A * A)) : list (LatLng A) :=
  map (fun '(lng, lat) => {| lat := lat; lng := lng |}) polygon.

(** The [paths] of [get_maps_image]. *)
Definition paths {A} (parcel : geometry A) : result (list (list (LatLng A))) :=
  polygons ← match parcel with
             | Polygon coordinates => Ok coordinates
             | MultiPolygon coordinates => outer_rings coordinates
             | OtherGeometry _ => Raise ValueError
             end;
  Ok (map StaticMapPath polygons).

(** The shape [shapely.wkb.loads] reads from the [geometry] column, as far
    as [get_maps_image] looks at it: its mapping, its bounds and its
    centroid.  Decoding the column and computing these three are shapely's
    work and are taken as given. *)
Record shape := {
  mapping : geometry R;
  bounds : R * R * R * R;
  centroid : R * R           (* x, y *)
}.

(** The arguments of [client.static_map]. *)
Record static_map := {
  size : Z;
  center : LatLng R;
  path : list (list (LatLng R));
  maptype : string;
  zoom_level : Z
}.

(** [get_maps_image], from the decoded shape to the call of
    [client.static_map]; the result is the request that is sent. *)
Definition get_maps_image (shp : shape) : result static_map :=
  let parcel := mapping shp in
  paths ← paths parcel;
  let bounds := scale_bounds (bounds shp) 3%R in
  zoom ← calculate_zoom bounds (1000%R, 1000%R);
  Ok {| size := 1000;
        center := {| lat := (centroid shp).2; lng := (centroid shp).1 |};
        path := paths;
        maptype := "roadmap";
        zoom_level := zoom |}.

(** ** The camera table of the specification *)

(** Floor counts are compared with whole numbers exactly. *)
Definition floors_lt (f : spec_float) (z : Z) : bool :=
  match Float64.compare_int z f with Some Gt => true | _ => false end.
Definition floors_eq (f : spec_float) (z : Z) : bool :=
  match Float64.compare_int z f with Some Eq => true | _ => false end.
Definition floors_ge (f : spec_float) (z : Z) : bool :=
  match Float64.compare_int z f with Some (Lt | Eq) => true | _ => false end.

(** The table of field of view and pitch by floor count, row by row as the
    specification gives it.  Floor counts between the rows (3.5, 6.5, NaN)
    have no row. *)
Definition camera_table (f : spec_float) : option (Z * Z) :=
  if floors_lt f 3 then Some (65, 10)
  else if floors_eq f 3 then Some (72, 10)
  else if floors_eq f 4 then Some (76, 15)
  else if floors_ge f 5 && floors_lt f 6 then Some (81, 20)
  else if floors_eq f 6 then Some (86, 20)
  else if floors_eq f 7 then Some (81, 20)
  else if floors_ge f 8 && floors_lt f 10 then Some (90, 25)
  else if floors_ge f 10 then Some (90, 30)
  else None.

(** How a float sits among the integers: not at all (NaN), beyond all of
    them (an infinity), at zero, or as the rational [v / P]. *)
Inductive int_view (f : spec_float) : Prop :=
  | view_nan : f = S754_nan -> int_view f
  | view_inf s : f = S754_infinity s -> int_view f
  | view_zero s : f = S754_zero s -> int_view f
  | view_scaled v P :
      0 < P -> Float64.is_zero f = false ->
      (forall z, Float64.compare_int z f = Some (z * P ?= v)) ->
      int_view f.

(** A lot that has only a [floors] column. *)
Definition lot_with_floors (v : pyval) : EveryLot :=
  {| search_format := [Named "address"];
     print_format := [Named "address"];
     lot := {[ "floors" := v ]} |}.

Definition lot_without_floors : EveryLot :=
  {| search_format := [Named "address"];
     print_format := [Named "address"];
     lot := ∅ |}.

(** ** Selecting a lot *)

(** The column and the value [__init__] selects by: the identifier when
    one is given, the first lot not yet tweeted otherwise. *)
Definition selection (id_ : pyval) : string * pyval :=
  if py_truthy id_ then ("id", id_) else ("tweeted", VInt 0).

(** No row of the table matches the selection: the query is well formed
    and every row fails its WHERE clause. *)
Definition no_row_matches (db : database) (id_ : pyval) : Prop :=
  exists i j,
    column_index (selection id_).1 (columns db) = Some i /\
    column_index "id" (columns db) = Some j /\
    Forall (fun row => sql_eq (cell i row) (selection id_).2 = false) (rows db).

Definition empty_lots : database :=
  {| columns := ["id"; "address"; "lat"; "lon"; "floors"; "tweeted"]; rows := [] |}.

(** Two lots, both tweeted already. *)
Definition tweeted_lots : database :=
  {| columns := ["id"; "address"; "lat"; "lon"; "floors"; "tweeted"];
     rows := [ [VInt 1; VStr "1 Main St"; VNone; VNone; VInt 2; VInt 901];
               [VInt 2; VStr "2 Main St"; VNone; VNone; VInt 3; VInt 902] ] |}.


(** ** Resolving the location: what the specification speaks of *)

(** The format string takes all its fields from the keyword arguments. *)
Definition keyword_only (fmt : list field) : Prop :=
  Forall (fun fld => match fld with Pos _ => False | _ => True end) fmt.

(** Some field the format string refers to is not a key of the dict. *)
Definition missing_field (fmt : list field) (kwargs : gmap string pyval) : Prop :=
  exists name, In (Named name) fmt /\ kwargs !! name = None.


(** The service answers 200 and places the address at the numbers
    [vlat], [vlng]. *)
Definition geocodes_to (net : network) (address key : string) (vlat vlng : pyval) : Prop :=
  exists r loc jlat jlng,
    net address key = Ok r /\ status_code r = 200 /\ location_of r = Ok loc /\
    json_getitem loc "lat" = Ok jlat /\ json_number jlat = Ok vlat /\
    json_getitem loc "lng" = Ok jlng /\ json_number jlng = Ok vlng.

(** [v] is inside the closed interval from [lo] to [hi]: equal to an end or
    strictly between the two. *)
Definition within (v : pyval) (lo hi : spec_float) : Prop :=
  (py_compare v (VFloat lo) = Ok (Some Eq) \/ py_compare v (VFloat lo) = Ok (Some Gt)) /\
  (py_compare v (VFloat hi) = Ok (Some Eq) \/ py_compare v (VFloat hi) = Ok (Some Lt)).


(** *** Sample lots and services *)

Definition default_search_format : list field :=
  [Named "address"; Lit ", "; Named "city"; Lit " "; Named "state"].

Definition lot_of (fields : gmap string pyval) : EveryLot :=
  {| search_format := default_search_format;
     print_format := [Named "address"];
     lot := fields |}.

Definition address_fields : gmap string pyval :=
  <["address" := VStr "1 Main St"]> (<["city" := VStr "Springfield"]>
    (<["state" := VStr "IL"]> ∅)).

(** 40.7128, -74.006 *)
Definition lat0 : spec_float := Float64.of_decimal false 407128 (-4).
Definition lon0 : spec_float := Float64.of_decimal true 74006 (-3).

Definition full_lot : EveryLot :=
  lot_of (<["lat" := VFloat lat0]> (<["lon" := VFloat lon0]> address_fields)).
Definition lot_without_city : EveryLot :=
  lot_of (<["lat" := VFloat lat0]> (<["lon" := VFloat lon0]>
            (<["address" := VStr "1 Main St"]> ∅))).
Definition lot_without_city_and_lat : EveryLot :=
  lot_of (<["lon" := VFloat lon0]> (<["address" := VStr "1 Main St"]> ∅)).

Definition net_down : network := fun _ _ => Raise RequestException.
Definition net_status (code : Z) : network :=
  fun _ _ => Ok {| status_code := code; json_body := None |}.
Definition net_location (jlat jlng : json) : network :=
  fun _ _ =>
    Ok {| status_code := 200;
          json_body := Some (JDict [("results",
            JList [JDict [("geometry",
              JDict [("location", JDict [("lat", jlat); ("lng", jlng)])])]]);
            ("status", JStr "OK")]) |}.

(** ** Boxes and zoom: what the specification speaks of *)

(** The value [latRad] returns for a latitude between the poles. *)
Definition mercator (lat : R) : R :=
  (Rmax (Rmin (ln ((1 + sin (lat * PI / 180)) / (1 - sin (lat * PI / 180))) / 2) PI) (- PI)
   / 2)%R.





(** The box of half-width [a] degrees around latitude 0, longitude 0. *)
Definition square (a : R) : R * R * R * R := (- a, - a, a, a)%R.


(** *** A sample parcel: a square with a square hole *)

Definition outer_ring : list (R * R) :=
  [(- (2 / 5), - (2 / 5)); (2 / 5, - (2 / 5)); (2 / 5, 2 / 5); (- (2 / 5), 2 / 5);
   (- (2 / 5), - (2 / 5))]%R.
Definition hole_ring : list (R * R) :=
  [(- (1 / 10), - (1 / 10)); (- (1 / 10), 1 / 10); (1 / 10, 1 / 10); (1 / 10, - (1 / 10));
   (- (1 / 10), - (1 / 10))]%R.

Definition holed_square : shape :=
  {| mapping := Polygon [outer_ring; hole_ring];
     bounds := (- (2 / 5), - (2 / 5), 2 / 5, 2 / 5)%R;
     centroid := (0, 0)%R |}.

(** The same parcel stored as a multi-polygon of one polygon. *)
Definition holed_square_multi : shape :=
  {| mapping := MultiPolygon [[outer_ring; hole_ring]];
     bounds := (- (2 / 5), - (2 / 5), 2 / 5, 2 / 5)%R;
     centroid := (0, 0)%R |}.

(** ** Marking a lot as tweeted *)

(** The table has distinct column names and one value per column in every
    row. *)
Definition well_formed_table (db : database) : Prop :=
  NoDup (columns db) /\
  Forall (fun row => length row = length (columns db)) (rows db).

(** The identifiers of the table are integers. *)
Definition integer_ids (db : database) (j : nat) : Prop :=
  Forall (fun row => exists z, cell j row = VInt z) (rows db).

(** [UPDATE lots SET tweeted = ? WHERE id = ?] *)
Definition UPDATE (db : database) (status_id id : pyval) : result database :=
  match column_index "tweeted" (columns db), column_index "id" (columns db) with
  | Some t, Some j =>
      Ok {| columns := columns db;
            rows := map (fun row => if sql_eq (cell j row) id
                                    then <[t := status_id]> row else row)
                        (rows db) |}
  | _, _ => Raise OperationalError
  end.

(** [mark_as_tweeted]: the table after the update is committed. *)
Definition mark_as_tweeted (self : EveryLot) (status_id : pyval) (db : database)
  : result database :=
  id ← py_getitem (lot self) "id";
  UPDATE db status_id id.

(** ** Composing the tweet *)

Module Tweet.
(** The dict [compose] returns; [media_ids] is handed through as it is. *)
Record t (M : Type) := {
  status : string;
  lat : pyval;
  long : pyval;
  media_ids : M
}.
Arguments status {M} _.
Arguments lat {M} _.
Arguments long {M} _.
Arguments media_ids {M} _.
End Tweet.

Definition compose {M} (self : EveryLot) (media_ids : M) : result (Tweet.t M) :=
  status ← py_format (print_format self) [] (lot self);
  Ok {| Tweet.status := status;
        Tweet.lat := default (VFloat (S754_zero false)) (lot self !! "lat");
        Tweet.long := default (VFloat (S754_zero false)) (lot self !! "lon");
        Tweet.media_ids := media_ids |}.

(** Every field the format string names is a key of the dict. *)
Definition all_fields_present (fmt : list field) (kwargs : gmap string pyval) : Prop :=
  forall name, In (Named name) fmt -> is_Some (kwargs !! name).

(** ** Fetching the street view image *)

Module StreetView.
(** The query parameters of the request to [SVAPI]. *)
Record params := {
  location : string;
  key : string;
  size : string;
  fov : Z;
  pitch : Z
}.
End StreetView.

(** The answer of the street view service: its status code and its body.
    The body is read in full when [requests.get] returns. *)
Record image_response := {
  image_status : Z;
  content : list Byte.byte
}.

Definition streetview_service : Type := StreetView.params -> result image_response.

(** [r.iter_content()]: the body, one byte at a time. *)
Definition iter_content (r : image_response) : list (list Byte.byte) :=
  map (fun b => [b]) (content r).

(** An in-memory binary stream: what it holds and where it stands. *)
Record BytesIO := {
  getvalue : list Byte.byte;
  tell : nat
}.

Definition BytesIO_new : BytesIO := {| getvalue := []; tell := 0 |}.

(** [sv.write(chunk)]: the chunk replaces what is at the position and the
    position moves past it. *)
Definition write (sv : BytesIO) (chunk : list Byte.byte) : BytesIO :=
  {| getvalue := (take (tell sv) (getvalue sv) ++ chunk
                  ++ drop (tell sv + length chunk) (getvalue sv))%list;
     tell := tell sv + length chunk |}.

Definition seek (sv : BytesIO) (pos : nat) : BytesIO :=
  {| getvalue := getvalue sv; tell := pos |}.

(** The requests a run sends out, in order. *)
Inductive call :=
  | GeocodeCall (e : event)
  | StreetViewCall (p : StreetView.params).

Definition get_streetview_image (self : EveryLot) (key : string)
    (net : network) (sv_api : streetview_service) : result BytesIO * list call :=
  let '(location, geocoding) := streetviewable_location self key net in
  let calls := map GeocodeCall geocoding in
  match location with
  | Raise e => (Raise e, calls)
  | Ok location =>
      match aim_camera self with
      | Raise e => (Raise e, calls)
      | Ok (fov, pitch) =>
          let params := {| StreetView.location := location;
                           StreetView.key := key;
                           StreetView.size := "1000x1000";
                           StreetView.fov := fov;
                           StreetView.pitch := pitch |} in
          (r ← sv_api params;
           let sv := fold_left write (iter_content r) BytesIO_new in
           Ok (seek sv 0),
           (calls ++ [StreetViewCall params])%list)
      end
  end.

(** What the update does to one row. *)
Definition marked (t j : nat) (status_id id : pyval) (row : list pyval) : list pyval :=
  if sql_eq (cell j row) id then <[t := status_id]> row else row.

(** A table of four lots: one tweeted, two waiting, one whose [tweeted] is
    NULL. *)
Definition sample_lots : database :=
  {| columns := ["id"; "address"; "floors"; "tweeted"];
     rows := [ [VInt 3; VStr "3 Main St"; VInt 2; VInt 0];
               [VInt 1; VStr "1 Main St"; VInt 5; VInt 901];
               [VInt 2; VStr "2 Main St"; VNone; VInt 0];
               [VInt 0; VStr "0 Main St"; VInt 9; VNone] ] |}.

(** The lot [__init__] makes of a row of [sample_lots]. *)
Definition sample_lot (row : list pyval) : EveryLot :=
  {| search_format := [Named "address"; Lit ", "; Named "city"; Lit " "; Named "state"];
     print_format := [Named "address"];
     lot := dict_zip (columns sample_lots) row |}.

(** ** The camera by priority *)

(** The cascade of [aim_camera] read from its last test to its first. *)
Definition camera_by_floors (f : spec_float) : Z * Z :=
  if floors_ge f 10 then (90, 30)
  else if floors_ge f 8 then (90, 25)
  else if floors_ge f 5 then (if floors_eq f 6 then 86 else 81, 20)
  else if floors_eq f 4 then (76, 15)
  else if floors_eq f 3 then (72, 10)
  else (65, 10).

(** A value that is neither an [int] nor a [float]. *)
Definition not_a_number (v : pyval) : Prop :=
  match v with
  | VInt _ | VFloat _ => False
  | _ => True
  end.

(** A street view service that refuses: status 403 and a body that is no
    image. *)
Definition sv_forbidden : streetview_service :=
  fun _ => Ok {| image_status := 403; content := [Byte.x6e; Byte.x6f] |}.
(** * Properties *)

(** Closed facts about sample data are settled by evaluation. *)
Ltac by_evaluation := vm_compute; reflexivity.

(** ** The model of [float] at work *)

(** [repr] and [float] on a few numbers, as Python prints and reads
    them. *)
Example float_repr_samples :
  Float64.repr d = "0.007" /\
  Float64.repr (Float64.add lat0 d) = "40.7198" /\
  Float64.repr (Float64.sub lon0 d) = "-74.013" /\
  Float64.repr (Float64.add (Float64.of_decimal false 1 (-1))
                            (Float64.of_decimal false 2 (-1))) = "0.30000000000000004" /\
  Float64.repr (Float64.of_int (10 ^ 16)) = "1e+16" /\
  Float64.repr (Float64.of_decimal false 1 (-5)) = "1e-05".
Proof. repeat split; by_evaluation. Qed.

Example float_of_string_samples :
  py_float (VStr " 1_000.5e-1 ") = Ok (Float64.of_decimal false 100050 (-3)) /\
  py_float (VStr "-Infinity") = Ok (S754_infinity true) /\
  py_float (VStr "1__0") = Raise ValueError /\
  py_float (VStr "") = Raise ValueError /\
  py_float (VInt (10 ^ 400)) = Raise OverflowError /\
  py_float VNone = Raise TypeError.
Proof. repeat split; by_evaluation. Qed.

(** An [int] is compared with a [float] without rounding it first:
    2^53 + 1 is not equal to the float it converts to. *)
Example int_float_comparison_is_exact :
  py_eq (VInt 3) (VFloat (Float64.of_int 3)) = true /\
  py_eq (VInt (2 ^ 53 + 1)) (VFloat (Float64.of_int (2 ^ 53 + 1))) = false /\
  py_gt (VInt (2 ^ 53 + 1)) (VFloat (Float64.of_int (2 ^ 53 + 1))) = Ok true.
Proof. repeat split; by_evaluation. Qed.

(** ** Floats against whole numbers *)

Lemma int_view_total f : int_view f.
Proof.
  destruct f as [s|s| |s m e].
  - by eapply view_zero.
  - by eapply view_inf.
  - by apply view_nan.
  - destruct (Z.leb_spec 0 e) as [He|He].
    + apply (view_scaled _ (cond_Zopp s (Zpos m) * 2 ^ e) 1); try done.
      intros z. simpl. destruct (Z.leb_spec 0 e); [|lia]. by rewrite Z.mul_1_r.
    + apply (view_scaled _ (cond_Zopp s (Zpos m)) (2 ^ (- e))); try done.
      * apply Z.pow_pos_nonneg; lia.
      * intros z. simpl. by destruct (Z.leb_spec 0 e); [lia|].
Qed.

(** ** Camera aiming *)

(** C1. Whatever the [floors] column holds (or when the lot has no such
    column, which counts as 0), if [float] turns it into the floor count
    [f] and the table of the specification has a row for [f], then
    [aim_camera] returns the (fov, pitch) of that row; without a [floors]
    column that row is (65, 10). *)
Theorem aim_camera_table self f p :
  py_float (default (VInt 0) (lot self !! "floors")) = Ok f ->
  camera_table f = Some p ->
  aim_camera self = Ok p /\ (lot self !! "floors" = None -> p = (65, 10)).
Proof.
  intros Hf Ht. split.
  - unfold aim_camera, floors_of. rewrite Hf. simpl.
    unfold py_or, camera_table, floors_lt, floors_eq, floors_ge in *. simpl.
    destruct (int_view_total f) as [->| s -> | s -> | v P HP Hz Hc].
    + simpl in *. done.
    + destruct s; simpl in *; simplify_eq; done.
    + simpl in *. simplify_eq. done.
    + rewrite Hz. simpl. unfold py_ge, py_eq. simpl.
      rewrite !Hc in *. simpl.
      revert Ht.
      destruct (Z.compare_spec (3 * P) v); simpl;
      destruct (Z.compare_spec (4 * P) v); simpl; try lia;
      destruct (Z.compare_spec (5 * P) v); simpl; try lia;
      destruct (Z.compare_spec (6 * P) v); simpl; try lia;
      destruct (Z.compare_spec (7 * P) v); simpl; try lia;
      destruct (Z.compare_spec (8 * P) v); simpl; try lia;
      destruct (Z.compare_spec (10 * P) v); simpl; try lia;
      intros; simplify_eq; done.
  - intros Hnone. rewrite Hnone in Hf. simpl in Hf. simplify_eq.
    vm_compute in Ht. by simplify_eq.
Qed.

(** The rows at the boundaries, a floor count read from text, and a lot
    without the column. *)
Lemma aim_camera_table_witness :
  aim_camera (lot_with_floors (VInt 5)) = Ok (81, 20) /\
  aim_camera (lot_with_floors (VFloat (Float64.of_int 6))) = Ok (86, 20) /\
  aim_camera (lot_with_floors (VInt 7)) = Ok (81, 20) /\
  aim_camera (lot_with_floors (VStr "8")) = Ok (90, 25) /\
  aim_camera (lot_with_floors (VInt 10)) = Ok (90, 30) /\
  aim_camera lot_without_floors = Ok (65, 10).
Proof.
  split; [|split; [|split; [|split; [|split]]]].
  - apply (aim_camera_table (lot_with_floors (VInt 5)) (Float64.of_int 5)); reflexivity.
  - apply (aim_camera_table (lot_with_floors (VFloat (Float64.of_int 6))) (Float64.of_int 6));
      reflexivity.
  - apply (aim_camera_table (lot_with_floors (VInt 7)) (Float64.of_int 7)); reflexivity.
  - apply (aim_camera_table (lot_with_floors (VStr "8")) (Float64.of_int 8)); reflexivity.
  - apply (aim_camera_table (lot_with_floors (VInt 10)) (Float64.of_int 10)); reflexivity.
  - apply (aim_camera_table lot_without_floors (S754_zero false)); reflexivity.
Defined.

(** Between the rows the earlier assignments stay: three and a half floors
    are aimed like two, six and a half like five. *)
Example aim_camera_between_rows :
  aim_camera (lot_with_floors (VStr "3.5")) = Ok (65, 10) /\
  aim_camera (lot_with_floors (VStr "6.5")) = Ok (81, 20).
Proof. split; reflexivity. Qed.

(** C9, as the code has it. A lot without a [floors] column, or with NULL
    in it, is aimed as a building of two floors: [aim_camera] returns
    (65, 10) and does not raise. *)
Theorem aim_camera_default_floors self :
  lot self !! "floors" = None \/ lot self !! "floors" = Some VNone ->
  floors_of self = Ok (VInt 2) /\ aim_camera self = Ok (65, 10).
Proof.
  intros H. assert (Hf : floors_of self = Ok (VInt 2)).
  { unfold floors_of. destruct H as [-> | ->]; reflexivity. }
  split; [done|]. unfold aim_camera. rewrite Hf. reflexivity.
Qed.

Lemma aim_camera_default_floors_witness :
  floors_of (lot_with_floors VNone) = Ok (VInt 2) /\
  aim_camera (lot_with_floors VNone) = Ok (65, 10).
Proof. apply (aim_camera_default_floors (lot_with_floors VNone)). right. reflexivity. Defined.

(** C9, as stated, fails: text that is no number makes [float] raise
    [ValueError], which [except TypeError] lets through. *)
Lemma aim_camera_text_floors_raises :
  py_float (VStr "abc") = Raise ValueError /\
  aim_camera (lot_with_floors (VStr "abc")) = Raise ValueError.
Proof. split; reflexivity. Qed.

(** ** Loading the lot *)

Lemma matching_nil db i value :
  Forall (fun row => sql_eq (cell i row) value = false) (rows db) ->
  matching db i value = [].
Proof.
  unfold matching. induction 1 as [|row rs Hrow _ IH]; simpl; [done|].
  by rewrite Hrow.
Qed.

Lemma fetchone_no_row db id_ :
  no_row_matches db id_ ->
  fetchone db (selection id_).1 (selection id_).2 = Ok None.
Proof.
  intros (i & j & Hi & Hj & Hrows). unfold fetchone.
  rewrite Hi, Hj. by rewrite matching_nil.
Qed.

(** C3, as the code has it. When no row matches the selection, whether an
    identifier was given or not, [__init__] fails with [TypeError]: the
    cursor yields no row and [zip(keys, None)] raises.  The code has no
    exception of its own for a lot that is not found. *)
Theorem init_no_row_raises_TypeError db search_fmt print_fmt id_ :
  no_row_matches db id_ ->
  __init__ db search_fmt print_fmt id_ = Raise TypeError.
Proof.
  intros H. apply fetchone_no_row in H. unfold __init__.
  fold (selection id_). destruct (selection id_) as [field value]. simpl in *.
  by rewrite H.
Qed.

Lemma init_no_row_raises_TypeError_witness :
  __init__ empty_lots None None VNone = Raise TypeError /\
  __init__ tweeted_lots None None (VInt 7) = Raise TypeError.
Proof.
  split.
  - apply (init_no_row_raises_TypeError empty_lots None None VNone).
    exists 5%nat, 0%nat. repeat split; constructor.
  - apply (init_no_row_raises_TypeError tweeted_lots None None (VInt 7)).
    exists 0%nat, 0%nat. repeat split. repeat constructor.
Defined.

(** C3, as stated, fails: on the empty table no row matches, and the
    exception is [TypeError], not [NotFoundError]. *)
Lemma init_empty_table_not_NotFoundError :
  no_row_matches empty_lots VNone /\
  __init__ empty_lots None None VNone = Raise TypeError /\
  __init__ empty_lots None None VNone <> Raise NotFoundError.
Proof.
  split; [|split; [reflexivity|discriminate]].
  exists 5%nat, 0%nat. repeat split; constructor.
Qed.

(** A row that matches is loaded as a dict from column name to value. *)
Example init_loads_row :
  let db := {| columns := ["id"; "address"; "tweeted"];
               rows := [ [VInt 2; VStr "2 Main St"; VInt 0];
                         [VInt 1; VStr "1 Main St"; VInt 0];
                         [VInt 0; VStr "0 Main St"; VInt 55] ] |} in
  (self ← __init__ db None None VNone; Ok (lot self)) =
    Ok (<["id" := VInt 1]> (<["address" := VStr "1 Main St"]> (<["tweeted" := VInt 0]> ∅))) /\
  (self ← __init__ db None None (VInt 2); Ok (lot self)) =
    Ok (<["id" := VInt 2]> (<["address" := VStr "2 Main St"]> (<["tweeted" := VInt 0]> ∅))).
Proof. split; by_evaluation. Qed.

(** ** Resolving the location *)

Lemma append_empty_r (s : string) : s +:+ "" = s.
Proof.
  induction s as [|c s IH]; [done|].
  change (String c (s +:+ "") = String c s). by f_equal.
Qed.

Lemma latlon_present self lat lon :
  lot self !! "lat" = Some lat ->
  lot self !! "lon" = Some lon ->
  latlon self = Ok (py_str lat +:+ "," +:+ py_str lon).
Proof.
  intros Hlat Hlon. unfold latlon, py_getitem. rewrite Hlat, Hlon. simpl.
  by rewrite append_empty_r.
Qed.

(** A missing keyword field makes [format] raise [KeyError]. *)
Lemma py_format_missing_field fmt kwargs :
  keyword_only fmt ->
  missing_field fmt kwargs ->
  py_format fmt [] kwargs = Raise KeyError.
Proof.
  intros Hkw (name & Hin & Hnone).
  induction Hkw as [|fld fmt Hfld _ IH]; [done|].
  destruct fld as [text|name'|i]; [| |done]; simpl.
  - destruct Hin as [?|Hin]; [done|]. by rewrite IH.
  - destruct (kwargs !! name') as [v|] eqn:Hv; [|done].
    destruct Hin as [?|Hin]; [by simplify_eq|]. by rewrite IH.
Qed.

(** Once the address is formatted and the box is computed, exactly one
    request goes out, and the answer only chooses between the address and
    the coordinates. *)
Lemma streetviewable_location_confirmed self key net address minpt maxpt :
  py_format (search_format self) [] (lot self) = Ok address ->
  comfort_zone self = Ok (minpt, maxpt) ->
  streetviewable_location self key net =
    (match net address key with
     | Ok r =>
         if negb (status_code r =? 200) then latlon self
         else match location_of r ≫= (fun loc => outside_comfort_zone loc minpt maxpt) with
              | Ok false => Ok address
              | _ => latlon self
              end
     | Raise _ => latlon self
     end, [GeocodeRequest address key]).
Proof.
  intros Hfmt Hbox. unfold streetviewable_location. rewrite Hfmt, Hbox.
  unfold try_except_Exception, mbind, io_bind, requests_get, raise, lift, mret, io_ret.
  destruct (net address key) as [r|e]; simpl; [|done].
  destruct (status_code r =? 200); simpl; [|done].
  destruct (location_of r) as [loc|e]; simpl; [|done].
  destruct (outside_comfort_zone loc minpt maxpt) as [[]|e]; simpl; done.
Qed.

Lemma comfort_zone_latlon self minpt maxpt :
  comfort_zone self = Ok (minpt, maxpt) ->
  exists lat lon, lot self !! "lat" = Some lat /\ lot self !! "lon" = Some lon.
Proof.
  unfold comfort_zone, py_getitem. intros H.
  destruct (lot self !! "lat") as [lat|]; [|done].
  destruct (lot self !! "lon") as [lon|]; [by eauto|].
  simpl in H. by destruct (py_sub_float lat d).
Qed.

(** Coordinates stored as floats always give a box. *)
Lemma comfort_zone_floats self lat lon :
  lot self !! "lat" = Some (VFloat lat) ->
  lot self !! "lon" = Some (VFloat lon) ->
  comfort_zone self = Ok ((Float64.sub lat d, Float64.sub lon d),
                          (Float64.add lat d, Float64.add lon d)).
Proof. intros Hlat Hlon. unfold comfort_zone, py_getitem. by rewrite Hlat, Hlon. Qed.

(** With an address and a box the method never raises, whatever the
    service does. *)
Lemma streetviewable_location_never_raises self key net address minpt maxpt :
  py_format (search_format self) [] (lot self) = Ok address ->
  comfort_zone self = Ok (minpt, maxpt) ->
  exists s, streetviewable_location self key net = (Ok s, [GeocodeRequest address key]).
Proof.
  intros Hfmt Hbox.
  destruct (comfort_zone_latlon _ _ _ Hbox) as (lat & lon & Hlat & Hlon).
  rewrite (streetviewable_location_confirmed _ _ _ _ _ _ Hfmt Hbox).
  rewrite (latlon_present _ _ _ Hlat Hlon).
  destruct (net address key) as [r|e]; [|by eauto].
  destruct (negb _); [by eauto|].
  destruct (location_of r ≫= _) as [[]|]; by eauto.
Qed.



(** C5, as the code has it. When the search format takes its fields by
    name, one of them is missing from the lot, and the lot has [lat] and
    [lon], [streetviewable_location] returns "lat,lon" at once: no request
    is made and nothing is raised, whichever field is missing. *)
Theorem streetviewable_location_without_address self key net lat lon :
  keyword_only (search_format self) ->
  missing_field (search_format self) (lot self) ->
  lot self !! "lat" = Some lat ->
  lot self !! "lon" = Some lon ->
  streetviewable_location self key net = (Ok (py_str lat +:+ "," +:+ py_str lon), []).
Proof.
  intros Hkw Hmiss Hlat Hlon. unfold streetviewable_location.
  rewrite (py_format_missing_field _ _ Hkw Hmiss).
  by rewrite (latlon_present _ _ _ Hlat Hlon).
Qed.

Lemma streetviewable_location_without_address_witness :
  streetviewable_location lot_without_city "KEY" net_down = (Ok "40.7128,-74.006", []).
Proof.
  assert (Hstr : py_str (VFloat lat0) +:+ "," +:+ py_str (VFloat lon0) = "40.7128,-74.006")
    by by_evaluation.
  rewrite <- Hstr.
  apply (streetviewable_location_without_address lot_without_city "KEY" net_down).
  - repeat constructor.
  - exists "city". split; [simpl; tauto|]. by_evaluation.
  - by_evaluation.
  - by_evaluation.
Defined.

(** C5, as stated, fails: a lot that misses the city and also has no
    [lat] makes the fallback itself raise [KeyError]. *)
Lemma streetviewable_location_without_address_or_lat :
  missing_field (search_format lot_without_city_and_lat) (lot lot_without_city_and_lat) /\
  streetviewable_location lot_without_city_and_lat "KEY" net_down = (Raise KeyError, []).
Proof.
  split; [|by_evaluation].
  exists "city". split; [simpl; tauto|]. by_evaluation.
Qed.



Lemma json_lt_within v lo hi j :
  json_number j = Ok v -> within v lo hi ->
  json_lt j lo = Ok false /\ json_gt j hi = Ok false.
Proof.
  intros Hj [Hlo Hhi]. unfold json_lt, json_gt, py_lt, py_gt. rewrite Hj. simpl.
  destruct Hlo as [-> | ->], Hhi as [-> | ->]; done.
Qed.

(** C10. The box is closed: for a lot whose address formats and whose box
    is computed, when the service answers 200 with a latitude and a
    longitude that each are equal to an edge of the box or strictly
    between its edges, [streetviewable_location] returns the formatted
    address, not the coordinates. *)
Theorem streetviewable_location_edge_is_inside
    self key net address minpt maxpt vlat vlng :
  py_format (search_format self) [] (lot self) = Ok address ->
  comfort_zone self = Ok (minpt, maxpt) ->
  geocodes_to net address key vlat vlng ->
  within vlat minpt.1 maxpt.1 ->
  within vlng minpt.2 maxpt.2 ->
  streetviewable_location self key net = (Ok address, [GeocodeRequest address key]).
Proof.
  intros Hfmt Hbox (r & loc & jlat & jlng & Hnet & Hst & Hloc & Hlat & Hvlat & Hlng & Hvlng)
    Wlat Wlng.
  rewrite (streetviewable_location_confirmed _ _ _ _ _ _ Hfmt Hbox).
  rewrite Hnet, Hst, Hloc. simpl.
  destruct (json_lt_within _ _ _ _ Hvlat Wlat) as [Hs Hn].
  destruct (json_lt_within _ _ _ _ Hvlng Wlng) as [Hw He].
  unfold outside_comfort_zone. rewrite Hlat, Hlng. simpl.
  rewrite Hw. simpl. rewrite He. simpl. rewrite Hn. simpl. rewrite Hs. done.
Qed.

(** The answer sits on the north edge and on the west edge at once. *)
Lemma streetviewable_location_edge_is_inside_witness :
  streetviewable_location full_lot "KEY"
    (net_location (JFloat (Float64.add lat0 d)) (JFloat (Float64.sub lon0 d))) =
    (Ok "1 Main St, Springfield IL", [GeocodeRequest "1 Main St, Springfield IL" "KEY"]).
Proof.
  apply (streetviewable_location_edge_is_inside full_lot "KEY" _ _
           (Float64.sub lat0 d, Float64.sub lon0 d) (Float64.add lat0 d, Float64.add lon0 d)
           (VFloat (Float64.add lat0 d)) (VFloat (Float64.sub lon0 d))).
  - by_evaluation.
  - by_evaluation.
  - exists {| status_code := 200;
              json_body := Some (JDict [("results",
                JList [JDict [("geometry",
                  JDict [("location", JDict [("lat", JFloat (Float64.add lat0 d));
                                             ("lng", JFloat (Float64.sub lon0 d))])])]]);
                ("status", JStr "OK")]) |},
           (JDict [("lat", JFloat (Float64.add lat0 d)); ("lng", JFloat (Float64.sub lon0 d))]),
           (JFloat (Float64.add lat0 d)), (JFloat (Float64.sub lon0 d)).
    repeat split; by_evaluation.
  - split; [right|left]; by_evaluation.
  - split; [left|right]; by_evaluation.
Defined.

(** A service that finds nothing, or answers with something that is not
    JSON, also ends in the coordinates. *)
Example streetviewable_location_no_results :
  streetviewable_location full_lot "KEY"
    (fun _ _ => Ok {| status_code := 200;
                      json_body := Some (JDict [("results", JList []);
                                                ("status", JStr "ZERO_RESULTS")]) |}) =
    (Ok "40.7128,-74.006", [GeocodeRequest "1 Main St, Springfield IL" "KEY"]) /\
  streetviewable_location full_lot "KEY" (net_status 200) =
    (Ok "40.7128,-74.006", [GeocodeRequest "1 Main St, Springfield IL" "KEY"]).
Proof. split; by_evaluation. Qed.

(** A [lat] column that holds NULL is not a missing key: the subtraction
    raises [TypeError], which [except KeyError] lets through. *)
Example streetviewable_location_null_lat :
  streetviewable_location (lot_of (<["lat" := VNone]> (<["lon" := VNone]> address_fields)))
    "KEY" net_down = (Raise TypeError, []).
Proof. by_evaluation. Qed.

(** Just beyond the edge the coordinates are used. *)
Example streetviewable_location_beyond_edge :
  streetviewable_location full_lot "KEY"
    (net_location (JFloat (SFsucc Float64.prec Float64.emax (Float64.add lat0 d)))
                  (JFloat lon0)) =
    (Ok "40.7128,-74.006", [GeocodeRequest "1 Main St, Springfield IL" "KEY"]).
Proof. by_evaluation. Qed.

(** ** Zoom levels *)

Section Zoom.
#[local] Open Scope R_scope.

Lemma ln_le_compat x y : 0 < x -> x <= y -> ln x <= ln y.
Proof.
  intros Hx [Hlt | ->]; [|lra]. left. by apply ln_increasing.
Qed.

Lemma degrees_between_poles lat :
  -90 < lat < 90 -> - (PI / 2) < lat * PI / 180 < PI / 2.
Proof. intros H. pose proof PI_RGT_0. nra. Qed.

Lemma sin_between_poles lat :
  -90 < lat < 90 -> -1 < sin (lat * PI / 180) < 1.
Proof.
  intros H. apply degrees_between_poles in H. destruct H as [Hlo Hhi].
  pose proof PI_RGT_0 as Hpi. split.
  - replace (-1) with (sin (- (PI / 2))) by (rewrite sin_neg, sin_PI2; lra).
    apply sin_increasing_1; lra.
  - rewrite <- sin_PI2. apply sin_increasing_1; lra.
Qed.

Lemma latRad_returns lat : -90 < lat < 90 -> latRad lat = Ok (mercator lat).
Proof.
  intros H. apply sin_between_poles in H. unfold latRad, mercator.
  set (s := sin (lat * PI / 180)) in *.
  destruct (Req_dec_T (1 - s) 0) as [?|_]; [lra|].
  destruct (Rle_dec ((1 + s) / (1 - s)) 0) as [Hq|_]; [|done].
  exfalso. assert (0 < (1 + s) / (1 - s)); [|lra].
  apply Rdiv_lt_0_compat; lra.
Qed.


Lemma ln_2_pos : 0 < ln 2.
Proof. rewrite <- ln_1. apply ln_increasing; lra. Qed.

(** [ln y] lies between [1 - 1/y] and [y - 1]. *)
Lemma ln_upper y : 0 < y -> ln y <= y - 1.
Proof.
  intros Hy. pose proof (exp_ineq1_le (ln y)) as H.
  rewrite exp_ln in H by done. lra.
Qed.

Lemma ln_lower y : 0 < y -> 1 - / y <= ln y.
Proof.
  intros Hy. pose proof (ln_upper (/ y) (Rinv_0_lt_compat _ Hy)) as H.
  rewrite ln_Rinv in H by done. lra.
Qed.

Lemma zoom_returns mapPx fraction :
  0 < mapPx -> 0 < fraction ->
  zoom mapPx 256 fraction = Ok (Zfloor (ln (mapPx / 256 / fraction) / ln 2)).
Proof.
  intros Hm Hf. unfold zoom.
  destruct (Req_dec_T 256 0) as [?|_]; [lra|].
  destruct (Req_dec_T fraction 0) as [?|_]; [lra|].
  destruct (Rle_dec (mapPx / 256 / fraction) 0) as [Hq|_]; [|done].
  exfalso. assert (0 < mapPx / 256 / fraction); [|lra].
  apply Rdiv_lt_0_compat; [|done]. lra.
Qed.


(** The zoom is the number of times the fraction of the world can be
    doubled before it no longer fits the map. *)
Lemma zoom_between mapPx fraction (k : nat) :
  0 < mapPx -> 0 < fraction ->
  2 ^ k <= mapPx / 256 / fraction < 2 ^ S k ->
  zoom mapPx 256 fraction = Ok (Z.of_nat k).
Proof.
  intros Hm Hf [Hlo Hhi]. rewrite zoom_returns by done. f_equal.
  pose proof ln_2_pos as H2.
  assert (Hk : 0 < 2 ^ k) by (apply pow_lt; lra).
  apply Zfloor_eq. rewrite <- INR_IZR_INZ. split.
  - apply (Rmult_le_reg_r (ln 2)); [done|].
    unfold Rdiv. rewrite Rmult_assoc, Rinv_l, Rmult_1_r by lra.
    rewrite <- ln_pow by lra. apply ln_le_compat; lra.
  - apply (Rmult_lt_reg_r (ln 2)); [done|].
    unfold Rdiv. rewrite Rmult_assoc, Rinv_l, Rmult_1_r by lra.
    replace ((INR k + 1) * ln 2) with (INR (S k) * ln 2) by (rewrite S_INR; lra).
    rewrite <- ln_pow by lra. apply ln_increasing; [|lra].
    apply Rlt_le_trans with (2 ^ k); lra.
Qed.


Lemma sin_lower x : 0 <= x <= 1 -> x - x ^ 3 / 6 <= sin x.
Proof.
intros Hx. pose proof PI2_1 as Hpi.
destruct (SIN x) as [Hlb _]; [lra|lra|].
apply Rle_trans with (sin_lb x); [|done].
unfold sin_lb, sin_approx. cbn [sum_f_R0]. unfold sin_term.
replace (2 * 0 + 1)%nat with 1%nat by reflexivity.
replace (2 * 1 + 1)%nat with 3%nat by reflexivity.
replace (2 * 2 + 1)%nat with 5%nat by reflexivity.
replace (2 * 3 + 1)%nat with 7%nat by reflexivity.
rewrite !INR_IZR_INZ.
change (Z.of_nat (fact 1)) with 1%Z.
change (Z.of_nat (fact 3)) with 6%Z.
replace (Z.of_nat (fact 5)) with 120%Z by by_evaluation.
replace (Z.of_nat (fact 7)) with 5040%Z by by_evaluation.
assert (H5 : 0 <= x ^ 5) by (apply pow_le; lra).
assert (H7 : x ^ 7 <= x ^ 5).
{ replace (x ^ 7) with (x ^ 5 * (x * x)) by ring.
  rewrite <- (Rmult_1_r (x ^ 5)) at 2. apply Rmult_le_compat_l; [done|]. nra. }
lra.
Qed.




(** A fraction of the world between 1/262 and 1/131 of its width fits a
    map of 1000 pixels at zoom 9. *)
Lemma zoom_9 fraction :
  1000 / 256 / 1024 < fraction <= 1000 / 256 / 512 ->
  zoom 1000 256 fraction = Ok 9%Z.
Proof.
  intros [Hlo Hhi]. assert (Hf : 0 < fraction) by lra.
  apply (zoom_between 1000 fraction 9); [lra|done|].
  replace (2 ^ 9) with 512 by (simpl; lra).
  replace (2 ^ 10) with 1024 by (simpl; lra).
  split.
  - apply (Rmult_le_reg_r fraction); [done|].
    unfold Rdiv at 1. rewrite Rmult_assoc, Rinv_l, Rmult_1_r by lra. lra.
  - apply (Rmult_lt_reg_r fraction); [done|].
    unfold Rdiv at 1. rewrite Rmult_assoc, Rinv_l, Rmult_1_r by lra. lra.
Qed.

(** On a square around the origin the latitude fraction is
    [ln ((1 + s) / (1 - s)) / (2 PI)], [s] the sine of the half-width. *)
Lemma mercator_square a :
  0 < a <= 5 / 4 ->
  let x := a * PI / 180 in
  (mercator a - mercator (- a)) / PI = ln ((1 + sin x) / (1 - sin x)) / (2 * PI) /\
  99 / 100 * (36 / 37) * (a / 180) <= ln ((1 + sin x) / (1 - sin x)) / (2 * PI)
    <= 36 / 35 * (a / 180).
Proof.
  intros Ha x. pose proof PI_RGT_0 as Hpi0. pose proof PI_4 as Hpi4.
  pose proof PI2_1 as Hpi2.
  assert (Hx : 0 < x <= 1 / 36) by (unfold x; nra).
  assert (Hsx : sin x < x) by (apply sin_lt_x; lra).
  assert (Hsl : 99 / 100 * x <= sin x).
  { apply Rle_trans with (x - x ^ 3 / 6); [|apply sin_lower; lra].
    assert (x ^ 3 <= x * (1 / 1296)); [|lra].
    replace (x ^ 3) with (x * (x * x)) by ring.
    apply Rmult_le_compat_l; [lra|]. nra. }
  set (s := sin x) in *.
  set (q := (1 + s) / (1 - s)).
  assert (Hq : 0 < q) by (apply Rdiv_lt_0_compat; lra).
  assert (Hqinv : / q = (1 - s) / (1 + s)) by (unfold q; field; lra).
  assert (Hup : ln q <= 2 * (36 / 35) * x).
  { apply Rle_trans with (q - 1); [by apply ln_upper|].
    unfold q. apply (Rmult_le_reg_r (1 - s)); [lra|].
    replace (((1 + s) / (1 - s) - 1) * (1 - s)) with (2 * s) by (field; lra). nra. }
  assert (Hlo : 2 * (99 / 100) * (36 / 37) * x <= ln q).
  { apply Rle_trans with (1 - / q); [|by apply ln_lower].
    rewrite Hqinv. apply (Rmult_le_reg_r (1 + s)); [lra|].
    replace ((1 - (1 - s) / (1 + s)) * (1 + s)) with (2 * s) by (field; lra). nra. }
  assert (Hm : mercator a = ln q / 2 / 2).
  { unfold mercator. fold x. fold s. fold q.
    rewrite Rmin_left, Rmax_left; lra. }
  assert (Hm' : mercator (- a) = - ln q / 2 / 2).
  { unfold mercator. replace (- a * PI / 180) with (- x) by (unfold x; lra).
    rewrite sin_neg. fold s.
    replace ((1 + - s) / (1 - - s)) with (/ q) by (rewrite Hqinv; field; lra).
    rewrite ln_Rinv by done.
    rewrite Rmin_left, Rmax_left; lra. }
  split.
  - rewrite Hm, Hm'. field. lra.
  - assert (Hax : a / 180 = x / PI) by (unfold x; field; lra).
    rewrite Hax. split.
    + apply (Rmult_le_reg_r (2 * PI)); [lra|].
      replace (ln q / (2 * PI) * (2 * PI)) with (ln q) by (field; lra).
      replace (99 / 100 * (36 / 37) * (x / PI) * (2 * PI))
        with (2 * (99 / 100) * (36 / 37) * x) by (field; lra). done.
    + apply (Rmult_le_reg_r (2 * PI)); [lra|].
      replace (ln q / (2 * PI) * (2 * PI)) with (ln q) by (field; lra).
      replace (36 / 35 * (x / PI) * (2 * PI)) with (2 * (36 / 35) * x) by (field; lra).
      done.
Qed.

(** Squares of half-width between 1 and 1.25 degrees all get zoom 9 on
    a map of 1000 by 1000 pixels. *)
Lemma calculate_zoom_square a :
  1 <= a <= 5 / 4 -> calculate_zoom (square a) (1000, 1000) = Ok 9%Z.
Proof.
  intros Ha. unfold square, calculate_zoom.
  rewrite (latRad_returns a), (latRad_returns (- a)) by lra. simpl.
  destruct (Rlt_dec (a - - a) 0) as [?|_]; [lra|].
  destruct (mercator_square a) as [-> Hb]; [lra|].
  rewrite !zoom_9; [done|lra|lra].
Qed.




(** ** Scaling the bounds *)

End Zoom.

(** ** The overlay paths *)

(** A polygon contributes every one of its rings. *)
Lemma paths_Polygon {A} (rings : list (list (A * A))) :
  paths (Polygon rings) = Ok (map StaticMapPath rings).
Proof. reflexivity. Qed.

(** A multi-polygon contributes the first ring of each polygon. *)
Lemma paths_MultiPolygon {A} (polygons : list (list (list (A * A)))) :
  Forall (fun polygon => polygon <> []) polygons ->
  paths (MultiPolygon polygons) = Ok (map (fun polygon => StaticMapPath (hd [] polygon)) polygons).
Proof.
  intros H. unfold paths.
  assert (Hr : outer_rings polygons = Ok (map (hd []) polygons)).
  { induction H as [|polygon rest Hne _ IH]; [done|].
    simpl. destruct polygon as [|ring more]; [done|]. simpl. by rewrite IH. }
  rewrite Hr. simpl. by rewrite map_map.
Qed.

Lemma scale_bounds_holed_square :
  scale_bounds (- (2 / 5), - (2 / 5), 2 / 5, 2 / 5)%R 3%R = square (6 / 5).
Proof. unfold scale_bounds, square. simpl. repeat f_equal; lra. Qed.

(** C2 at a polygon with a hole: the request of [get_maps_image] carries
    two paths, the second of which is the hole, so the corner
    (lat 0.1, lng -0.1) of the hole is among the points drawn.  The same
    parcel as a multi-polygon is drawn with its outer ring only. *)
Theorem get_maps_image_polygon_draws_hole :
  get_maps_image holed_square =
    Ok {| size := 1000;
          center := {| lat := 0%R; lng := 0%R |};
          path := [StaticMapPath outer_ring; StaticMapPath hole_ring];
          maptype := "roadmap";
          zoom_level := 9 |} /\
  In {| lat := (1 / 10)%R; lng := (- (1 / 10))%R |} (StaticMapPath hole_ring) /\
  get_maps_image holed_square_multi =
    Ok {| size := 1000;
          center := {| lat := 0%R; lng := 0%R |};
          path := [StaticMapPath outer_ring];
          maptype := "roadmap";
          zoom_level := 9 |}.
Proof.
  assert (Hz : calculate_zoom (scale_bounds (- (2 / 5), - (2 / 5), 2 / 5, 2 / 5)%R 3%R)
                 (1000%R, 1000%R) = Ok 9).
  { rewrite scale_bounds_holed_square. apply calculate_zoom_square. lra. }
  split; [|split].
  - unfold get_maps_image, holed_square. cbn [mapping bounds centroid].
    rewrite paths_Polygon. cbn [mbind result_bind]. by rewrite Hz.
  - simpl. tauto.
  - unfold get_maps_image, holed_square_multi. cbn [mapping bounds centroid].
    rewrite paths_MultiPolygon by (by repeat constructor).
    cbn [mbind result_bind]. by rewrite Hz.
Qed.

(** * More of the class *)

(** ** Selecting and marking lots *)

Lemma column_index_lookup name cols i :
  column_index name cols = Some i -> cols !! i = Some name.
Proof.
  revert i. induction cols as [|c cols IH]; intros i; simpl; [done|].
  destruct (decide (c = name)) as [->|_]; [by intros [= <-]|].
  destruct (column_index name cols) as [i'|]; [|done]. intros [= <-]. by apply IH.
Qed.

Lemma cell_lookup i row v : row !! i = Some v -> cell i row = v.
Proof. intros H. unfold cell. by rewrite nth_lookup, H. Qed.

Lemma fold_insert_other (l : list (string * pyval)) (m : gmap string pyval) k :
  k ∉ l.*1 ->
  fold_left (fun m kv => <[kv.1 := kv.2]> m) l m !! k = m !! k.
Proof.
  revert m. induction l as [|[k' v'] l IH]; intros m Hk; simpl; [done|].
  rewrite fmap_cons in Hk. apply not_elem_of_cons in Hk as [Hne Hk].
  rewrite IH by done. by rewrite lookup_insert_ne.
Qed.

Lemma fold_insert_lookup (l : list (string * pyval)) (m : gmap string pyval) k v :
  NoDup l.*1 -> (k, v) ∈ l ->
  fold_left (fun m kv => <[kv.1 := kv.2]> m) l m !! k = Some v.
Proof.
  revert m. induction l as [|[k' v'] l IH]; intros m Hnd Hin; [by apply elem_of_nil in Hin|].
  simpl in *. apply NoDup_cons in Hnd as [Hk' Hnd].
  apply elem_of_cons in Hin as [[= -> ->]|Hin].
  - rewrite fold_insert_other by done. by rewrite lookup_insert_eq.
  - by apply IH.
Qed.

(** In a row of the right length the dict of a row holds, under each
    column name, the cell of that column. *)
Lemma dict_zip_lookup keys row name i :
  NoDup keys -> length row = length keys ->
  column_index name keys = Some i ->
  dict_zip keys row !! name = Some (cell i row).
Proof.
  intros Hnd Hlen Hi. apply column_index_lookup in Hi.
  destruct (lookup_lt_is_Some_2 row i) as [v Hv].
  { rewrite Hlen. by eapply lookup_lt_Some. }
  rewrite (cell_lookup _ _ _ Hv). unfold dict_zip. apply fold_insert_lookup.
  - rewrite fst_zip by lia. done.
  - apply list_elem_of_lookup. exists i. by rewrite lookup_zip_with, Hi, Hv.
Qed.

Lemma least_by_In j rs r : least_by j rs = Some r -> In r rs.
Proof.
  revert r. induction rs as [|r0 rs IH]; intros r; simpl; [done|].
  destruct (least_by j rs) as [r'|]; [|intros [= <-]; by left].
  destruct (sql_compare (cell j r') (cell j r0)); intros [= <-]; auto.
Qed.

Lemma least_by_Some j rs : rs <> [] -> is_Some (least_by j rs).
Proof.
  destruct rs as [|r0 rs]; [done|]. intros _. simpl.
  destruct (least_by j rs) as [r'|]; [|by eauto].
  destruct (sql_compare _ _); by eauto.
Qed.

(** Among rows with integer identifiers [least_by] yields one with the
    least identifier. *)
Lemma least_by_least j rs r z :
  Forall (fun row => exists z, cell j row = VInt z) rs ->
  least_by j rs = Some r -> cell j r = VInt z ->
  forall row z', In row rs -> cell j row = VInt z' -> z <= z'.
Proof.
  intros Hint. revert r z. induction Hint as [|r0 rs [z0 Hz0] Hint IH]; intros r z; [done|].
  simpl. destruct (least_by j rs) as [r'|] eqn:Hl.
  - destruct (Forall_forall (fun row => exists z, cell j row = VInt z) rs) as [HF _].
    destruct (HF Hint r' (proj2 (list_elem_of_In _ _) (least_by_In _ _ _ Hl))) as [z1 Hz1].
    specialize (IH r' z1 eq_refl Hz1).
    rewrite Hz1, Hz0. unfold sql_compare. simpl.
    destruct (Z.compare_spec z1 z0); intros [= <-] Hz row z' Hrow Hz';
      (destruct Hrow as [<-|Hin]; [|specialize (IH _ _ Hin Hz')]);
      rewrite ?Hz0, ?Hz1 in *; simplify_eq; lia.
  - destruct rs as [|r1 rs].
    + intros [= <-] Hz row z' [<-|[]] Hz'. rewrite Hz0 in *. simplify_eq. lia.
    + destruct (least_by_Some j (r1 :: rs)) as [x Hx]; [done|congruence].
Qed.

Lemma matching_In db i value row :
  In row (matching db i value) <-> In row (rows db) /\ sql_eq (cell i row) value = true.
Proof. unfold matching. apply filter_In. Qed.

(** What [__init__] loads is the dict of a row that satisfies the WHERE
    clause, the first one in the order of [id]. *)
Lemma init_inv db search_fmt print_fmt id_ self :
  __init__ db search_fmt print_fmt id_ = Ok self ->
  exists i j row,
    column_index (selection id_).1 (columns db) = Some i /\
    column_index "id" (columns db) = Some j /\
    least_by j (matching db i (selection id_).2) = Some row /\
    lot self = dict_zip (columns db) row.
Proof.
  unfold __init__. fold (selection id_). destruct (selection id_) as [field value].
  unfold fetchone. simpl.
  destruct (column_index field (columns db)) as [i|]; [|done].
  destruct (column_index "id" (columns db)) as [j|]; [|done]. simpl.
  destruct (least_by j (matching db i value)) as [row|] eqn:Hl; [|done].
  intros [= <-]. by exists i, j, row.
Qed.

(** The default selection loads the untweeted lot with the least
    identifier: in a table with distinct column names, full rows and
    integer identifiers, the lot [__init__] loads without an identifier has
    a [tweeted] value that SQL counts equal to 0 (so never NULL), and no
    row with such a value has a smaller [id]. *)
Theorem init_picks_least_untweeted db search_fmt print_fmt self t j :
  well_formed_table db ->
  column_index "tweeted" (columns db) = Some t ->
  column_index "id" (columns db) = Some j ->
  integer_ids db j ->
  __init__ db search_fmt print_fmt VNone = Ok self ->
  exists z tweeted,
    lot self !! "id" = Some (VInt z) /\
    lot self !! "tweeted" = Some tweeted /\ sql_eq tweeted (VInt 0) = true /\
    forall row z', In row (rows db) -> sql_eq (cell t row) (VInt 0) = true ->
                   cell j row = VInt z' -> z <= z'.
Proof.
  intros [Hnd Hlen] Ht Hj Hids Hinit.
  destruct (init_inv _ _ _ _ _ Hinit) as (i & j' & row & Hi & Hj' & Hleast & Hlot).
  simpl in Hi, Hleast. rewrite Ht in Hi. injection Hi as <-.
  rewrite Hj in Hj'. injection Hj' as <-.
  pose proof (least_by_In _ _ _ Hleast) as Hrow.
  apply matching_In in Hrow as [Hrow Hmatch].
  assert (Hl : length row = length (columns db)).
  { rewrite Forall_forall in Hlen. by apply Hlen, list_elem_of_In. }
  assert (Hids' : Forall (fun row => exists z, cell j row = VInt z) (matching db t (VInt 0))).
  { apply Forall_forall. intros r Hr. apply list_elem_of_In, matching_In in Hr as [Hr _].
    unfold integer_ids in Hids. rewrite Forall_forall in Hids. by apply Hids, list_elem_of_In. }
  destruct (proj1 (Forall_forall _ _) Hids' row) as [z Hz].
  { apply list_elem_of_In. by eapply least_by_In. }
  exists z, (cell t row). rewrite Hlot.
  rewrite (dict_zip_lookup _ _ "id" j), (dict_zip_lookup _ _ "tweeted" t), Hz by done.
  repeat split; [done|].
  intros row' z' Hrow' Hmatch' Hz'.
  eapply (least_by_least _ _ _ _ Hids' Hleast Hz row'); [|done]. by apply matching_In.
Qed.

Lemma init_of_matching_row db search_fmt print_fmt id_ i j row :
  column_index (selection id_).1 (columns db) = Some i ->
  column_index "id" (columns db) = Some j ->
  In row (rows db) ->
  sql_eq (cell i row) (selection id_).2 = true ->
  exists self row',
    __init__ db search_fmt print_fmt id_ = Ok self /\
    In row' (rows db) /\ sql_eq (cell i row') (selection id_).2 = true /\
    lot self = dict_zip (columns db) row'.
Proof.
  intros Hi Hj Hrow Hmatch.
  destruct (least_by_Some j (matching db i (selection id_).2)) as [row' Hleast].
  { intros Hnil. assert (Hin : In row (matching db i (selection id_).2)) by by apply matching_In.
    by rewrite Hnil in Hin. }
  pose proof (least_by_In _ _ _ Hleast) as Hin. apply matching_In in Hin as [Hin Hm].
  unfold __init__. fold (selection id_). destruct (selection id_) as [field value].
  unfold fetchone. simpl in *. rewrite Hi, Hj, Hleast. simpl.
  eexists _, row'. by repeat split.
Qed.

Lemma cell_insert_ne c t v row : c <> t -> cell c (<[t := v]> row) = cell c row.
Proof. intros H. unfold cell. by rewrite !nth_lookup, list_lookup_insert_ne. Qed.

Lemma cell_insert_eq t v row : (t < length row)%nat -> cell t (<[t := v]> row) = v.
Proof. intros H. unfold cell. by rewrite nth_lookup, list_lookup_insert_eq. Qed.

Lemma column_index_distinct a b cols t j :
  column_index a cols = Some t -> column_index b cols = Some j -> a <> b -> t <> j.
Proof.
  intros Ha Hb Hne ->. apply column_index_lookup in Ha, Hb. congruence.
Qed.

Lemma column_index_lt name cols i :
  column_index name cols = Some i -> (i < length cols)%nat.
Proof. intros H. apply column_index_lookup in H. by eapply lookup_lt_Some. Qed.

Lemma mark_as_tweeted_inv self status_id db db' :
  mark_as_tweeted self status_id db = Ok db' ->
  exists id t j,
    lot self !! "id" = Some id /\
    column_index "tweeted" (columns db) = Some t /\
    column_index "id" (columns db) = Some j /\
    columns db' = columns db /\
    rows db' = map (marked t j status_id id) (rows db).
Proof.
  unfold mark_as_tweeted, py_getitem, UPDATE.
  destruct (lot self !! "id") as [id|]; [|done]. simpl.
  destruct (column_index "tweeted" (columns db)) as [t|]; [|done].
  destruct (column_index "id" (columns db)) as [j|]; [|done].
  intros [= <-]. by exists id, t, j.
Qed.

Lemma marked_id t j status_id id row : t <> j -> cell j (marked t j status_id id row) = cell j row.
Proof. intros H. unfold marked. destruct (sql_eq _ _); [|done]. by apply cell_insert_ne. Qed.

Lemma marked_length t j status_id id row :
  length (marked t j status_id id row) = length row.
Proof. unfold marked. destruct (sql_eq _ _); [|done]. apply length_insert. Qed.

(** Round trip. After [mark_as_tweeted] with the status [status_id], loading
    the same lot by its identifier shows [status_id] in its [tweeted]
    field: for a table with distinct column names and full rows, and a lot
    whose identifier is one that [__init__] selects by and that some row of
    the table has. *)
Theorem mark_as_tweeted_then_load db self status_id id db' j row :
  well_formed_table db ->
  lot self !! "id" = Some id ->
  py_truthy id = true ->
  column_index "id" (columns db) = Some j ->
  In row (rows db) ->
  sql_eq (cell j row) id = true ->
  mark_as_tweeted self status_id db = Ok db' ->
  exists self',
    __init__ db' None None id = Ok self' /\
    lot self' !! "tweeted" = Some status_id.
Proof.
  intros [Hnd Hlen] Hid Htruthy Hj Hrow Hmatch Hmark.
  destruct (mark_as_tweeted_inv _ _ _ _ Hmark) as (id' & t & j' & Hid' & Ht & Hj' & Hcols & Hrows).
  rewrite Hid in Hid'. injection Hid' as <-. rewrite Hj in Hj'. injection Hj' as <-.
  assert (Htj : t <> j) by (by eapply column_index_distinct).
  assert (Hsel : selection id = ("id", id)) by (unfold selection; by rewrite Htruthy).
  assert (Hj' : column_index (selection id).1 (columns db') = Some j)
    by (by rewrite Hsel, Hcols).
  destruct (init_of_matching_row db' None None id j j (marked t j status_id id row))
    as (self' & row' & Hinit & Hrow' & Hmatch' & Hlot).
  - done.
  - by rewrite Hcols.
  - rewrite Hrows. by apply in_map.
  - by rewrite Hsel, marked_id.
  - exists self'. split; [done|]. rewrite Hlot, Hcols.
    rewrite Hrows in Hrow'. apply in_map_iff in Hrow' as (row0 & <- & Hrow0).
    rewrite Hsel, marked_id in Hmatch' by done. simpl in Hmatch'.
    assert (Hl : length row0 = length (columns db)).
    { rewrite Forall_forall in Hlen. by apply Hlen, list_elem_of_In. }
    rewrite (dict_zip_lookup _ _ "tweeted" t) by (by rewrite ?marked_length).
    unfold marked. rewrite Hmatch'. rewrite cell_insert_eq; [done|].
    rewrite Hl. by eapply column_index_lt.
Qed.

(** A lot marked with a status other than 0 is not loaded again by the
    default selection: whatever lot comes next has another identifier. *)
Theorem marked_lot_is_not_loaded_again db self status_id id db' self' :
  well_formed_table db ->
  lot self !! "id" = Some id ->
  sql_eq status_id (VInt 0) = false ->
  mark_as_tweeted self status_id db = Ok db' ->
  __init__ db' None None VNone = Ok self' ->
  exists id', lot self' !! "id" = Some id' /\ sql_eq id' id = false.
Proof.
  intros [Hnd Hlen] Hid Hstatus Hmark Hinit.
  destruct (mark_as_tweeted_inv _ _ _ _ Hmark) as (id' & t & j & Hid' & Ht & Hj & Hcols & Hrows).
  rewrite Hid in Hid'. injection Hid' as <-.
  assert (Htj : t <> j) by (by eapply column_index_distinct).
  destruct (init_inv _ _ _ _ _ Hinit) as (t' & j' & row' & Ht' & Hj' & Hleast & Hlot).
  simpl in Ht', Hleast. rewrite Hcols in Ht', Hj'.
  rewrite Ht in Ht'. injection Ht' as <-. rewrite Hj in Hj'. injection Hj' as <-.
  apply least_by_In, matching_In in Hleast as [Hrow' Hmatch'].
  rewrite Hrows in Hrow'. apply in_map_iff in Hrow' as (row & <- & Hrow).
  assert (Hl : length row = length (columns db)).
  { rewrite Forall_forall in Hlen. by apply Hlen, list_elem_of_In. }
  exists (cell j row). rewrite Hlot, Hcols.
  rewrite (dict_zip_lookup _ _ "id" j) by (by rewrite ?marked_length).
  rewrite marked_id by done. split; [done|].
  unfold marked in Hmatch'. destruct (sql_eq (cell j row) id) eqn:Hm; [|done].
  rewrite cell_insert_eq in Hmatch'; [congruence|].
  rewrite Hl. by eapply column_index_lt.
Qed.

(** [mark_as_tweeted] keeps the columns and the number of rows, changes no
    row with another identifier, and in the rows it changes touches the
    [tweeted] cell only. *)
Theorem mark_as_tweeted_touches_tweeted_only db self status_id db' id t j :
  lot self !! "id" = Some id ->
  column_index "tweeted" (columns db) = Some t ->
  column_index "id" (columns db) = Some j ->
  mark_as_tweeted self status_id db = Ok db' ->
  columns db' = columns db /\
  length (rows db') = length (rows db) /\
  forall n row, rows db !! n = Some row ->
    exists row', rows db' !! n = Some row' /\
      length row' = length row /\
      (forall c, c <> t -> cell c row' = cell c row) /\
      (sql_eq (cell j row) id = false -> row' = row).
Proof.
  intros Hid Ht Hj Hmark.
  destruct (mark_as_tweeted_inv _ _ _ _ Hmark) as (id' & t' & j' & Hid' & Ht' & Hj' & Hcols & Hrows).
  rewrite Hid in Hid'. injection Hid' as <-.
  rewrite Ht in Ht'. injection Ht' as <-. rewrite Hj in Hj'. injection Hj' as <-.
  split; [done|]. rewrite Hrows. split; [by rewrite length_map|].
  intros n row Hn. exists (marked t j status_id id row).
  rewrite list_lookup_fmap, Hn. split; [done|]. split; [apply marked_length|].
  unfold marked. split.
  - intros c Hc. destruct (sql_eq _ _); [|done]. by apply cell_insert_ne.
  - by intros ->.
Qed.

(** [__init__] returns a lot exactly when some row matches the selection
    (the columns of the query being there). *)
Theorem init_returns_iff_row_matches db search_fmt print_fmt id_ i j :
  column_index (selection id_).1 (columns db) = Some i ->
  column_index "id" (columns db) = Some j ->
  (exists self, __init__ db search_fmt print_fmt id_ = Ok self) <->
  (exists row, In row (rows db) /\ sql_eq (cell i row) (selection id_).2 = true).
Proof.
  intros Hi Hj. split.
  - intros [self Hinit].
    destruct (init_inv _ _ _ _ _ Hinit) as (i' & j' & row & Hi' & Hj' & Hleast & _).
    rewrite Hi in Hi'. injection Hi' as <-.
    apply least_by_In, matching_In in Hleast. by exists row.
  - intros (row & Hrow & Hmatch).
    destruct (init_of_matching_row db search_fmt print_fmt id_ i j row)
      as (self & _ & Hinit & _); by eauto.
Qed.

Lemma sample_lots_well_formed : well_formed_table sample_lots.
Proof.
  split.
  - apply (bool_decide_unpack _). by_evaluation.
  - repeat constructor.
Qed.

Lemma init_returns_iff_row_matches_witness :
  (exists self, __init__ sample_lots None None (VInt 2) = Ok self) <->
  (exists row, In row (rows sample_lots) /\ sql_eq (cell 0 row) (VInt 2) = true).
Proof. apply (init_returns_iff_row_matches sample_lots None None (VInt 2) 0 0); reflexivity. Defined.

Lemma init_picks_least_untweeted_witness :
  exists z tweeted,
    lot (sample_lot [VInt 2; VStr "2 Main St"; VNone; VInt 0]) !! "id" = Some (VInt z) /\
    lot (sample_lot [VInt 2; VStr "2 Main St"; VNone; VInt 0]) !! "tweeted" = Some tweeted /\
    sql_eq tweeted (VInt 0) = true /\
    forall row z', In row (rows sample_lots) -> sql_eq (cell 3 row) (VInt 0) = true ->
                   cell 0 row = VInt z' -> z <= z'.
Proof.
  apply (init_picks_least_untweeted sample_lots None None _ 3 0).
  - apply sample_lots_well_formed.
  - reflexivity.
  - reflexivity.
  - repeat constructor; by eexists.
  - by_evaluation.
Defined.

Lemma mark_as_tweeted_then_load_witness :
  exists self',
    __init__ {| columns := columns sample_lots;
                rows := map (marked 3 0 (VInt 7734) (VInt 2)) (rows sample_lots) |}
             None None (VInt 2) = Ok self' /\
    lot self' !! "tweeted" = Some (VInt 7734).
Proof.
  apply (mark_as_tweeted_then_load sample_lots
           (sample_lot [VInt 2; VStr "2 Main St"; VNone; VInt 0]) (VInt 7734) (VInt 2) _ 0
           [VInt 2; VStr "2 Main St"; VNone; VInt 0]).
  - apply sample_lots_well_formed.
  - by_evaluation.
  - reflexivity.
  - reflexivity.
  - simpl. tauto.
  - reflexivity.
  - by_evaluation.
Defined.

Lemma marked_lot_is_not_loaded_again_witness :
  exists id',
    lot (sample_lot [VInt 3; VStr "3 Main St"; VInt 2; VInt 0]) !! "id" = Some id' /\
    sql_eq id' (VInt 2) = false.
Proof.
  apply (marked_lot_is_not_loaded_again sample_lots
           (sample_lot [VInt 2; VStr "2 Main St"; VNone; VInt 0]) (VInt 7734) (VInt 2)
           {| columns := columns sample_lots;
              rows := map (marked 3 0 (VInt 7734) (VInt 2)) (rows sample_lots) |}).
  - apply sample_lots_well_formed.
  - by_evaluation.
  - reflexivity.
  - by_evaluation.
  - by_evaluation.
Defined.

Lemma mark_as_tweeted_touches_tweeted_only_witness :
  columns {| columns := columns sample_lots;
             rows := map (marked 3 0 (VInt 7734) (VInt 2)) (rows sample_lots) |}
    = columns sample_lots /\
  length (map (marked 3 0 (VInt 7734) (VInt 2)) (rows sample_lots)) = length (rows sample_lots) /\
  forall n row, rows sample_lots !! n = Some row ->
    exists row', map (marked 3 0 (VInt 7734) (VInt 2)) (rows sample_lots) !! n = Some row' /\
      length row' = length row /\
      (forall c, c <> 3%nat -> cell c row' = cell c row) /\
      (sql_eq (cell 0 row) (VInt 2) = false -> row' = row).
Proof.
  apply (mark_as_tweeted_touches_tweeted_only sample_lots
           (sample_lot [VInt 2; VStr "2 Main St"; VNone; VInt 0]) (VInt 7734)
           {| columns := columns sample_lots;
              rows := map (marked 3 0 (VInt 7734) (VInt 2)) (rows sample_lots) |}
           (VInt 2) 3 0).
  - by_evaluation.
  - reflexivity.
  - reflexivity.
  - by_evaluation.
Defined.

(** ** The camera, for every floor count *)

(** What [aim_camera] does is settled by what [float] makes of the
    [floors] value (0 when the key is absent): a float [f] gives the entry
    of the priority table for [f], which has 65 <= fov <= 90 and
    10 <= pitch <= 30; [TypeError] (the value is NULL) gives (65, 10); any
    other exception of [float] is raised by [aim_camera] unchanged. *)
Theorem aim_camera_outcome self :
  match py_float (default (VInt 0) (lot self !! "floors")) with
  | Ok f =>
      aim_camera self = Ok (camera_by_floors f) /\
      65 <= (camera_by_floors f).1 <= 90 /\ 10 <= (camera_by_floors f).2 <= 30
  | Raise TypeError => aim_camera self = Ok (65, 10)
  | Raise e => aim_camera self = Raise e
  end.
Proof.
  unfold aim_camera, floors_of.
  destruct (py_float _) as [f|e] eqn:Hf; simpl; [|by destruct e].
  unfold py_or, camera_by_floors, floors_eq, floors_ge. simpl.
  destruct (int_view_total f) as [->| s -> | s -> | v P HP Hz Hc].
  - simpl. repeat split; lia.
  - destruct s; simpl; repeat split; lia.
  - simpl. repeat split; lia.
  - rewrite Hz. simpl. unfold py_ge, py_eq. simpl. rewrite !Hc. simpl.
    destruct (Z.compare_spec (3 * P) v); simpl;
    destruct (Z.compare_spec (4 * P) v); simpl; try lia;
    destruct (Z.compare_spec (5 * P) v); simpl; try lia;
    destruct (Z.compare_spec (6 * P) v); simpl; try lia;
    destruct (Z.compare_spec (8 * P) v); simpl; try lia;
    destruct (Z.compare_spec (10 * P) v); simpl; try lia;
    repeat split; lia.
Qed.

(** ** More on resolving the location *)

(** Whatever the lot, the key and the service: [streetviewable_location]
    either sends nothing, or sends one request, which asks for the
    formatted address with the key, and after that returns (it does not
    raise) the address or the coordinates. *)
Theorem streetviewable_location_one_request self key net :
  (streetviewable_location self key net).2 = [] \/
  exists address s,
    py_format (search_format self) [] (lot self) = Ok address /\
    streetviewable_location self key net = (Ok s, [GeocodeRequest address key]) /\
    (s = address \/ latlon self = Ok s).
Proof.
  destruct (py_format (search_format self) [] (lot self)) as [address|e] eqn:Hfmt.
  - destruct (comfort_zone self) as [[minpt maxpt]|e] eqn:Hbox.
    + right. exists address.
      destruct (comfort_zone_latlon _ _ _ Hbox) as (lat & lon & Hlat & Hlon).
      rewrite (streetviewable_location_confirmed _ _ _ _ _ _ Hfmt Hbox).
      rewrite (latlon_present _ _ _ Hlat Hlon).
      destruct (net address key) as [r|e]; [|by eauto].
      destruct (negb _); [by eauto|].
      destruct (location_of r ≫= _) as [[]|]; by eauto.
    + left. unfold streetviewable_location. rewrite Hfmt, Hbox. by destruct e.
  - left. unfold streetviewable_location. rewrite Hfmt.
    by destruct e.
Qed.

(** A latitude or longitude that is there but is no number (NULL, text,
    bytes) is not handled: with the address formatted, the subtraction
    raises [TypeError] before any request is sent. *)
Theorem streetviewable_location_not_a_number self key net address lat :
  py_format (search_format self) [] (lot self) = Ok address ->
  lot self !! "lat" = Some lat ->
  not_a_number lat \/
    (exists f lon, py_sub_float lat d = Ok f /\ lot self !! "lon" = Some lon /\
                   not_a_number lon) ->
  streetviewable_location self key net = (Raise TypeError, []).
Proof.
  intros Hfmt Hlat H. unfold streetviewable_location. rewrite Hfmt.
  assert (Hbox : comfort_zone self = Raise TypeError).
  { unfold comfort_zone, py_getitem. rewrite Hlat. simpl.
    destruct H as [Hnan | (f & lon & Hsub & Hlon & Hnan)].
    - by destruct lat.
    - rewrite Hsub, Hlon. simpl. by destruct lon. }
  by rewrite Hbox.
Qed.

Lemma streetviewable_location_not_a_number_witness :
  streetviewable_location (lot_of (<["lat" := VNone]> (<["lon" := VNone]> address_fields)))
    "KEY" net_down = (Raise TypeError, []) /\
  streetviewable_location
    (lot_of (<["lat" := VFloat lat0]> (<["lon" := VStr "-74.006"]> address_fields)))
    "KEY" net_down = (Raise TypeError, []).
Proof.
  split.
  - apply (streetviewable_location_not_a_number _ "KEY" net_down
             "1 Main St, Springfield IL" VNone); [by_evaluation|by_evaluation|].
    by left.
  - apply (streetviewable_location_not_a_number _ "KEY" net_down
             "1 Main St, Springfield IL" (VFloat lat0)); [by_evaluation|by_evaluation|].
    right. exists (Float64.sub lat0 d), (VStr "-74.006").
    split; [reflexivity|]. split; [by_evaluation|done].
Defined.

(** ** Composing the tweet *)

Lemma py_format_all_fields_present fmt kwargs :
  keyword_only fmt ->
  all_fields_present fmt kwargs ->
  exists s, py_format fmt [] kwargs = Ok s.
Proof.
  intros Hkw. induction Hkw as [|fld fmt Hfld _ IH]; intros Hall; [by exists ""|].
  destruct IH as [rest Hrest].
  { intros name Hin. apply Hall. by right. }
  destruct fld as [text|name|i]; [| |done]; simpl.
  - rewrite Hrest. by eauto.
  - destruct (Hall name) as [v ->]; [by left|]. rewrite Hrest. by eauto.
Qed.

(** With a print format that takes its fields by name, [compose] returns
    when the lot has every field the format names, and then hands on the
    lot's [lat] and [lon] as they are (0.0 for a key that is absent) and
    the media ids untouched; when a field is missing it raises [KeyError],
    which nothing catches. *)
Theorem compose_outcome {M} self (media_ids : M) :
  keyword_only (print_format self) ->
  (all_fields_present (print_format self) (lot self) ->
   exists status,
     py_format (print_format self) [] (lot self) = Ok status /\
     compose self media_ids =
       Ok {| Tweet.status := status;
             Tweet.lat := default (VFloat (S754_zero false)) (lot self !! "lat");
             Tweet.long := default (VFloat (S754_zero false)) (lot self !! "lon");
             Tweet.media_ids := media_ids |}) /\
  (missing_field (print_format self) (lot self) ->
   compose self media_ids = Raise KeyError).
Proof.
  intros Hkw. split.
  - intros Hall.
    destruct (py_format_all_fields_present _ _ Hkw Hall) as [status Hstatus].
    exists status. split; [done|]. unfold compose. by rewrite Hstatus.
  - intros Hmiss. unfold compose. by rewrite (py_format_missing_field _ _ Hkw Hmiss).
Qed.

Lemma compose_outcome_witness :
  (exists status,
     py_format (print_format full_lot) [] (lot full_lot) = Ok status /\
     compose full_lot ["media-1"] =
       Ok {| Tweet.status := status;
             Tweet.lat := default (VFloat (S754_zero false)) (lot full_lot !! "lat");
             Tweet.long := default (VFloat (S754_zero false)) (lot full_lot !! "lon");
             Tweet.media_ids := ["media-1"] |}) /\
  compose lot_without_floors ["media-1"] = Raise KeyError.
Proof.
  split.
  - apply (proj1 (compose_outcome full_lot ["media-1"] ltac:(repeat constructor))).
    intros name [[= <-]|[]]. vm_compute. by eexists.
  - apply (proj2 (compose_outcome lot_without_floors ["media-1"] ltac:(repeat constructor))).
    exists "address". split; [by left|reflexivity].
Defined.

(** The tweet of the sample lot: its address, its coordinates as floats. *)
Example compose_full_lot :
  compose full_lot ["media-1"] =
    Ok {| Tweet.status := "1 Main St";
          Tweet.lat := VFloat lat0;
          Tweet.long := VFloat lon0;
          Tweet.media_ids := ["media-1"] |}.
Proof. by_evaluation. Qed.

(** ** Fetching the street view image *)

(** Written byte by byte into a fresh stream, a body is what the stream
    holds in the end. *)
Lemma write_bytes (body acc : list Byte.byte) :
  fold_left write (map (fun b => [b]) body) {| getvalue := acc; tell := length acc |}
  = {| getvalue := (acc ++ body)%list; tell := length (acc ++ body)%list |}.
Proof.
  revert acc. induction body as [|b body IH]; intros acc; simpl.
  - by rewrite app_nil_r.
  - replace (write {| getvalue := acc; tell := length acc |} [b])
      with {| getvalue := (acc ++ [b])%list; tell := length (acc ++ [b])%list |}.
    + rewrite IH. by rewrite <- app_assoc.
    + unfold write. simpl. rewrite firstn_all, length_app. simpl.
      rewrite drop_ge by lia. by rewrite ?app_nil_r.
Qed.

(** When the location is resolved, the camera is aimed and the street view
    service answers, [get_streetview_image] returns the body of the answer,
    whole and positioned at its start, whatever the status code of the
    answer; the street view request is the last one sent and carries the
    resolved location, the key, the size 1000x1000 and the camera. *)
Theorem get_streetview_image_returns_body
    self key net sv_api location geocoding fov pitch r :
  streetviewable_location self key net = (Ok location, geocoding) ->
  aim_camera self = Ok (fov, pitch) ->
  sv_api {| StreetView.location := location; StreetView.key := key;
            StreetView.size := "1000x1000";
            StreetView.fov := fov; StreetView.pitch := pitch |} = Ok r ->
  get_streetview_image self key net sv_api =
    (Ok {| getvalue := content r; tell := 0 |},
     (map GeocodeCall geocoding ++
      [StreetViewCall {| StreetView.location := location; StreetView.key := key;
                         StreetView.size := "1000x1000";
                         StreetView.fov := fov; StreetView.pitch := pitch |}])%list).
Proof.
  intros Hloc Hcam Hsv. unfold get_streetview_image. rewrite Hloc, Hcam, Hsv. simpl.
  unfold iter_content, BytesIO_new.
  pose proof (write_bytes (content r) []) as Hw. simpl in Hw. by rewrite Hw.
Qed.

(** No address found by the geocoder, no [floors] column, and a service
    that refuses: the refusal comes back as the image. *)
Lemma get_streetview_image_returns_body_witness :
  get_streetview_image full_lot "KEY" net_down sv_forbidden =
    (Ok {| getvalue := [Byte.x6e; Byte.x6f]; tell := 0 |},
     [GeocodeCall (GeocodeRequest "1 Main St, Springfield IL" "KEY");
      StreetViewCall {| StreetView.location := "40.7128,-74.006"; StreetView.key := "KEY";
                        StreetView.size := "1000x1000";
                        StreetView.fov := 65; StreetView.pitch := 10 |}]).
Proof.
  apply (get_streetview_image_returns_body full_lot "KEY" net_down sv_forbidden
           "40.7128,-74.006" [GeocodeRequest "1 Main St, Springfield IL" "KEY"] 65 10
           {| image_status := 403; content := [Byte.x6e; Byte.x6f] |}).
  - by_evaluation.
  - by_evaluation.
  - reflexivity.
Defined.

(** ** More on boxes and zoom *)

Section Boxes.
#[local] Open Scope R_scope.
















End Boxes.

(** ** More on the map request *)

Lemma outer_rings_inv {A} (polygons : list (list (list (A * A)))) rings :
  outer_rings polygons = Ok rings ->
  Forall2 (fun ring polygon => exists holes, polygon = ring :: holes) rings polygons.
Proof.
  revert rings. induction polygons as [|polygon rest IH]; intros rings; simpl.
  - intros [= <-]. constructor.
  - destruct polygon as [|ring holes]; [done|]. simpl.
    destruct (outer_rings rest) as [rings'|]; [|done]. simpl. intros [= <-].
    constructor; [by exists holes|by apply IH].
Qed.

Lemma outer_rings_empty_polygon {A} (polygons : list (list (list (A * A)))) :
  In [] polygons -> outer_rings polygons = Raise IndexError.
Proof.
  induction polygons as [|polygon rest IH]; [done|]. intros [->|Hin]; [done|].
  simpl. destruct polygon as [|ring holes]; [done|]. simpl. by rewrite IH.
Qed.

Lemma calculate_zoom_at_most_20 box mapDim z :
  calculate_zoom box mapDim = Ok z -> z <= 20.
Proof.
  destruct box as [[[b0 b1] b2] b3], mapDim as [w h]. unfold calculate_zoom.
  destruct (latRad b3) as [north|]; [|done]. destruct (latRad b1) as [south|]; [|done].
  simpl. destruct (zoom h 256 _) as [z1|]; [|done]. simpl.
  destruct (zoom w 256 _) as [z2|]; [|done]. simpl. intros [= <-]. lia.
Qed.

(** What [get_maps_image] asks of the static map service, whenever it
    gets that far: an image of size 1000, of type roadmap, centered on the
    centroid, at a zoom of at most 20, with one path per ring of a polygon,
    or one path per polygon of a multi-polygon, made of its first ring; a
    point (x, y) of a ring is drawn at latitude y, longitude x, in the
    order of the ring. *)
Theorem get_maps_image_request shp req :
  get_maps_image shp = Ok req ->
  size req = 1000 /\ maptype req = "roadmap" /\ zoom_level req <= 20 /\
  center req = {| lat := (centroid shp).2; lng := (centroid shp).1 |} /\
  match mapping shp with
  | Polygon rings => path req = map StaticMapPath rings
  | MultiPolygon polygons =>
      Forall2 (fun points polygon =>
                 exists ring holes, polygon = ring :: holes /\
                   points = map (fun xy => {| lat := xy.2; lng := xy.1 |}) ring)
              (path req) polygons
  | OtherGeometry _ => False
  end.
Proof.
  unfold get_maps_image. destruct (paths (mapping shp)) as [ps|] eqn:Hps; [|done]. simpl.
  destruct (calculate_zoom _ _) as [z|] eqn:Hz; [|done]. simpl. intros [= <-]. simpl.
  apply calculate_zoom_at_most_20 in Hz. repeat split; [done|].
  unfold paths in Hps. destruct (mapping shp) as [rings|polygons|ty]; simpl in Hps.
  - by injection Hps as <-.
  - destruct (outer_rings polygons) as [rings|] eqn:Hrings; [|done].
    simpl in Hps. injection Hps as <-. apply outer_rings_inv in Hrings.
    induction Hrings as [|ring polygon rings polygons [holes ->] _ IH]; simpl; constructor.
    + exists ring, holes. split; [done|]. unfold StaticMapPath.
      apply map_ext. by intros [x y].
    + done.
  - done.
Qed.

Lemma get_maps_image_holed_square_multi :
  get_maps_image holed_square_multi =
    Ok {| size := 1000;
          center := {| lat := 0%R; lng := 0%R |};
          path := [StaticMapPath outer_ring];
          maptype := "roadmap";
          zoom_level := 9 |}.
Proof.
  assert (Hz : calculate_zoom (scale_bounds (- (2 / 5), - (2 / 5), 2 / 5, 2 / 5)%R 3%R)
                 (1000%R, 1000%R) = Ok 9).
  { rewrite scale_bounds_holed_square. apply calculate_zoom_square. lra. }
  unfold get_maps_image, holed_square_multi. cbn [mapping bounds centroid].
  rewrite paths_MultiPolygon by (by repeat constructor).
  cbn [mbind result_bind]. by rewrite Hz.
Qed.

Lemma get_maps_image_request_witness :
  Forall2 (fun points polygon =>
             exists ring holes, polygon = ring :: holes /\
               points = map (fun xy => {| lat := xy.2; lng := xy.1 |}) ring)
          [StaticMapPath outer_ring] [[outer_ring; hole_ring]].
Proof.
  apply (get_maps_image_request holed_square_multi _ get_maps_image_holed_square_multi).
Defined.

(** A geometry that is neither a polygon nor a multi-polygon makes
    [get_maps_image] raise [ValueError], and a multi-polygon with a polygon
    that has no ring makes it raise [IndexError]: both before any zoom is
    computed, whatever the bounds are. *)
Theorem get_maps_image_bad_geometry shp :
  (forall type, mapping shp = OtherGeometry type -> get_maps_image shp = Raise ValueError) /\
  (forall polygons, mapping shp = MultiPolygon polygons -> In [] polygons ->
                    get_maps_image shp = Raise IndexError).
Proof.
  split.
  - intros type Hm. unfold get_maps_image. by rewrite Hm.
  - intros polygons Hm Hin. unfold get_maps_image, paths. rewrite Hm.
    by rewrite (outer_rings_empty_polygon _ Hin).
Qed.

Lemma get_maps_image_bad_geometry_witness :
  get_maps_image {| mapping := OtherGeometry "Point"; bounds := (1, 1, 1, 1)%R;
                    centroid := (1, 1)%R |} = Raise ValueError /\
  get_maps_image {| mapping := MultiPolygon [[outer_ring]; []];
                    bounds := (- (2 / 5), - (2 / 5), 2 / 5, 2 / 5)%R;
                    centroid := (0, 0)%R |} = Raise IndexError.
Proof.
  split.
  - by apply (proj1 (get_maps_image_bad_geometry _) "Point").
  - apply (proj2 (get_maps_image_bad_geometry _) [[outer_ring]; []]); [done|].
    simpl. tauto.
Defined.
